(** * The DenseNet training driver ([main.py])

    A shallow embedding of the driver script: its command-line
    namespace, the optimizer's parameter groups, the checkpoint files it
    writes and reads, and the control flow of [main],
    [save_checkpoint] and [adjust_learning_rate].

    Conventions of the embedding:
    - Python [int] is [Z]; floor division [//] is [Z.div].
    - Python [float] is an exact rational ([Q]): rounding and NaN are
      outside the model, [0.1 ** k] is [Qpower (1 # 10) k].
    - a [dict] with string keys is a [gmap string _].
    - the file system is a flat store from path strings to file
      contents, with a set of directories beside it.
    - the framework calls ([train], [validate], [test], model
      construction) are parameters of the development; they thread a
      hidden state of their own. *)

From Stdlib Require Import ZArith QArith Qpower String List Lia.
From stdpp Require Import gmap strings list fin_maps.

#[local] Set Warnings "-clear-no-such-hyp".

Local Open Scope Z_scope.

(** ** The command line *)

(** The namespace built by [parser.parse_args()] (main.py, lines 15-53). *)
Module args.
Record t := mk {
  epochs : Z;
  start_epoch : Z;
  batch_size : Z;
  lr : Q;
  momentum : Q;
  weight_decay : Q;
  print_freq : Z;
  layers : Z;
  growth : Z;
  droprate : Q;
  augment : bool;
  reduce : Q;
  bottleneck : bool;
  resume : string;
  imagenet : bool;
  test : string;
  name : string;
  tensorboard : bool
}.

(** The defaults of the [add_argument] and [set_defaults] calls. *)
Definition defaults : t :=
  {| epochs := 300; start_epoch := 0; batch_size := 64;
     lr := 1 # 10; momentum := 9 # 10; weight_decay := 1 # 10000;
     print_freq := 10; layers := 100; growth := 12; droprate := 0%Q;
     augment := true; reduce := 1 # 2; bottleneck := true;
     resume := ""; imagenet := false; test := "";
     name := "DenseNet_BC_100_12"; tensorboard := false |}.

(** [args.start_epoch = v] *)
Definition set_start_epoch (v : Z) (a : t) : t :=
  mk (epochs a) v (batch_size a) (lr a) (momentum a) (weight_decay a)
     (print_freq a) (layers a) (growth a) (droprate a) (augment a)
     (reduce a) (bottleneck a) (resume a) (imagenet a) (test a)
     (name a) (tensorboard a).

(** [args.test = v] *)
Definition set_test (v : string) (a : t) : t :=
  mk (epochs a) (start_epoch a) (batch_size a) (lr a) (momentum a)
     (weight_decay a) (print_freq a) (layers a) (growth a) (droprate a)
     (augment a) (reduce a) (bottleneck a) (resume a) (imagenet a) v
     (name a) (tensorboard a).
End args.

(** Truth value of a Python string in a condition: non-empty. *)
Definition truthy (s : string) : bool :=
  match s with
  | EmptyString => false
  | String _ _ => true
  end.

(** ** Numbers *)

(** [x > y] on floats. *)
Definition Qgt_bool (x y : Q) : bool := negb (Qle_bool x y).

(** The builtin [max(x, y)]: the first argument unless the second is
    strictly greater. *)
Definition py_max (x y : Q) : Q := if Qgt_bool y x then y else x.

(** [range(a, b)] *)
Definition range (a b : Z) : list Z := seqZ a (b - a).

(** ** The optimizer *)

(** An entry of a parameter group. *)
Inductive PVal :=
| PFloat (q : Q)
| PBool (b : bool)
| PParams.

(** [torch.optim.SGD]: what the driver touches is [param_groups], a
    list of dicts. *)
Record SGD := { param_groups : list (gmap string PVal) }.

(** ** The world of the driver *)

(** The data loaders built at lines 122-125. *)
Inductive Loader := TrainLoader | ValLoader | TestLoader.

(** The exceptions the embedded code can raise. *)
Inductive Exn :=
| UnboundLocalError (var : string)
| KeyError (key : string)
| TypeError
| FileNotFoundError (path : string)
| UnpicklingError (path : string).

(** ** A small framework to run the driver on

    The model is a counter of training passes, prec1 a quarter of it,
    and the hidden state counts the calls of the framework. *)

Definition toy_DenseNet (_ : args.t) : Z := 0.
Definition toy_nelement (_ : Z) : Z := 769162.
Definition toy_train (_ : Loader) (model : Z) (optimizer : SGD) (_ : Z) (_ : args.t)
    (x : nat) : Z * SGD * nat :=
  (model + 1, optimizer, S x).
Definition toy_validate (_ : Loader) (model : Z) (_ : Z) (_ : args.t) (x : nat) : Q * nat :=
  (Qmake model 4, S x).
Definition toy_test (_ : Loader) (_ : Z) (_ : args.t) (x : nat) : nat := S x.

(** [--imagenet], everything else by default. *)
Definition imagenet_args : args.t :=
  {| args.epochs := 300; args.start_epoch := 0; args.batch_size := 64;
     args.lr := 1 # 10; args.momentum := 9 # 10; args.weight_decay := 1 # 10000;
     args.print_freq := 10; args.layers := 100; args.growth := 12;
     args.droprate := 0%Q; args.augment := true; args.reduce := 1 # 2;
     args.bottleneck := true; args.resume := ""; args.imagenet := true;
     args.test := ""; args.name := "DenseNet_BC_100_12";
     args.tensorboard := false |}.

(** [--epochs 2] *)
Definition two_epochs_args : args.t :=
  {| args.epochs := 2; args.start_epoch := 0; args.batch_size := 64;
     args.lr := 1 # 10; args.momentum := 9 # 10; args.weight_decay := 1 # 10000;
     args.print_freq := 10; args.layers := 100; args.growth := 12;
     args.droprate := 0%Q; args.augment := true; args.reduce := 1 # 2;
     args.bottleneck := true; args.resume := ""; args.imagenet := false;
     args.test := ""; args.name := "DenseNet_BC_100_12";
     args.tensorboard := false |}.

(** [--epochs 2 --test exp], on CIFAR. *)
Definition cifar_test_args : args.t :=
  {| args.epochs := 2; args.start_epoch := 0; args.batch_size := 64;
     args.lr := 1 # 10; args.momentum := 9 # 10; args.weight_decay := 1 # 10000;
     args.print_freq := 10; args.layers := 100; args.growth := 12;
     args.droprate := 0%Q; args.augment := true; args.reduce := 1 # 2;
     args.bottleneck := true; args.resume := ""; args.imagenet := false;
     args.test := "exp"; args.name := "DenseNet_BC_100_12";
     args.tensorboard := false |}.

(** [--epochs 2 --test exp --imagenet] *)
Definition imagenet_test_args : args.t :=
  {| args.epochs := 2; args.start_epoch := 0; args.batch_size := 64;
     args.lr := 1 # 10; args.momentum := 9 # 10; args.weight_decay := 1 # 10000;
     args.print_freq := 10; args.layers := 100; args.growth := 12;
     args.droprate := 0%Q; args.augment := true; args.reduce := 1 # 2;
     args.bottleneck := true; args.resume := ""; args.imagenet := true;
     args.test := "exp"; args.name := "DenseNet_BC_100_12";
     args.tensorboard := false |}.

(** [--epochs 9 --resume runs/DenseNet_BC_100_12/checkpoint.pth.tar] *)
Definition resume_args : args.t :=
  {| args.epochs := 9; args.start_epoch := 0; args.batch_size := 64;
     args.lr := 1 # 10; args.momentum := 9 # 10; args.weight_decay := 1 # 10000;
     args.print_freq := 10; args.layers := 100; args.growth := 12;
     args.droprate := 0%Q; args.augment := true; args.reduce := 1 # 2;
     args.bottleneck := true; args.resume := "runs/DenseNet_BC_100_12/checkpoint.pth.tar";
     args.imagenet := false; args.test := ""; args.name := "DenseNet_BC_100_12";
     args.tensorboard := false |}.

Section Driver.

(** [Weights] is a model's state dict, [Ext] the hidden state of the
    framework (random generators, momentum buffers, the device). *)
Context {Weights Ext : Type}.

(** A value stored in a checkpoint dict. *)
Inductive CkVal :=
| CInt (z : Z)
| CFloat (q : Q)
| CStateDict (w : Weights).

(** The content of a regular file: a dict pickled by [torch.save], or
    anything else. *)
Inductive File :=
| Pickle (d : gmap string CkVal)
| Garbage.

(** The messages of the [print] calls of [main]. *)
Inductive Msg :=
| NumberOfModelParameters (n : Z)
| LoadingCheckpoint (path : string)
| LoadedCheckpoint (path : string) (epoch : Z)
| NoCheckpointFound (path : string)
| LoadingModel (path : string)
| LoadedModel (path : string)
| NoModelFound (path : string)
| BestAccuracy (best : Q).

(** The calls with an effect, in the order the driver makes them. *)
Inductive Event :=
| EvConfigure (dir : string)
| EvPrint (m : Msg)
| EvTorchLoad (path : string)
| EvLoadStateDict (w : Weights)
| EvSGD
| EvAdjustLearningRate (epoch : Z)
| EvLogValue (key : string) (v : Q) (step : Z)
| EvTrain (loader : Loader) (epoch : Z)
| EvValidate (loader : Loader) (epoch : Z) (prec1 : Q)
| EvSaveCheckpoint (state : gmap string CkVal) (is_best : bool)
| EvMakedirs (dir : string)
| EvTorchSave (path : string)
| EvCopyfile (src dst : string)
| EvTest (loader : Loader).

(** The two module globals, the file system, the framework's hidden
    state, and the calls made so far (oldest first). *)
Record State := mkState {
  args : args.t;
  best_prec1 : Q;
  files : gmap string File;
  dirs : gset string;
  ext : Ext;
  trace : list Event
}.

(** *** The framework *)

(** [dn.DenseNet3] / [dn.DenseNet4] followed by [.cuda()]. *)
Variable DenseNet : args.t -> Weights.
(** [sum([p.data.nelement() for p in model.parameters()])] *)
Variable nelement : Weights -> Z.
(** [train(train_loader, model, criterion, optimizer, epoch, args)]:
    updates the model and the optimizer it is given. *)
Variable train : Loader -> Weights -> SGD -> Z -> args.t -> Ext -> Weights * SGD * Ext.
(** [validate(val_loader, model, criterion, epoch, args)] returns prec1. *)
Variable validate : Loader -> Weights -> Z -> args.t -> Ext -> Q * Ext.
(** [test(test_loader, model, args)] *)
Variable test : Loader -> Weights -> args.t -> Ext -> Ext.

(** *** A state and exception monad *)

Inductive Outcome (A : Type) :=
| Ok (a : A) (s : State)
| Raise (e : Exn) (s : State).
Arguments Ok {A} a s.
Arguments Raise {A} e s.

Definition M (A : Type) : Type := State -> Outcome A.

Definition ret {A} (a : A) : M A := fun s => Ok a s.

Definition bind {A B} (m : M A) (k : A -> M B) : M B :=
  fun s =>
    match m s with
    | Ok a s' => k a s'
    | Raise e s' => Raise e s'
    end.

Notation "'let*' x := m 'in' k" := (bind m (fun x => k))
  (at level 10, x pattern, m at level 100, k at level 200).
Notation "m >> k" := (bind m (fun _ => k))
  (at level 100, k at level 200, right associativity).

Definition raise {A} (e : Exn) : M A := fun s => Raise e s.

Definition gets {A} (f : State -> A) : M A := fun s => Ok (f s) s.

Definition modify (f : State -> State) : M unit := fun s => Ok tt (f s).

Definition when (b : bool) (m : M unit) : M unit := if b then m else ret tt.

(** The state reached, whether by return or by exception. *)
Definition final {A} (o : Outcome A) : State :=
  match o with
  | Ok _ s => s
  | Raise _ s => s
  end.

Definition raised {A} (o : Outcome A) : option Exn :=
  match o with
  | Ok _ _ => None
  | Raise e _ => Some e
  end.

Definition set_args (a : args.t) (s : State) : State :=
  mkState a (best_prec1 s) (files s) (dirs s) (ext s) (trace s).
Definition set_best_prec1 (b : Q) (s : State) : State :=
  mkState (args s) b (files s) (dirs s) (ext s) (trace s).
Definition set_files (f : gmap string File) (s : State) : State :=
  mkState (args s) (best_prec1 s) f (dirs s) (ext s) (trace s).
Definition set_dirs (d : gset string) (s : State) : State :=
  mkState (args s) (best_prec1 s) (files s) d (ext s) (trace s).
Definition set_ext (x : Ext) (s : State) : State :=
  mkState (args s) (best_prec1 s) (files s) (dirs s) x (trace s).
Definition log (ev : Event) (s : State) : State :=
  mkState (args s) (best_prec1 s) (files s) (dirs s) (ext s) (trace s ++ [ev]).

Definition emit (ev : Event) : M unit := modify (log ev).

(** Reading a local variable that may not have been assigned. *)
Definition local {A} (var : string) (v : option A) : M A :=
  match v with
  | Some x => ret x
  | None => raise (UnboundLocalError var)
  end.

(** *** Library calls *)

Definition print (m : Msg) : M unit := emit (EvPrint m).

(** [tensorboard_logger.configure] *)
Definition configure (dir : string) : M unit := emit (EvConfigure dir).

(** [tensorboard_logger.log_value] *)
Definition log_value (key : string) (v : Q) (step : Z) : M unit :=
  emit (EvLogValue key v step).

(** [os.path.isfile]: a regular file is stored under the path. *)
Definition os_path_isfile (path : string) : M bool :=
  gets (fun s => bool_decide (is_Some (files s !! path))).

(** [os.path.exists]: the path is a directory or a file. *)
Definition os_path_exists (path : string) : M bool :=
  gets (fun s => bool_decide (path ∈ dirs s) || bool_decide (is_Some (files s !! path))).

(** [os.makedirs] *)
Definition os_makedirs (dir : string) : M unit :=
  emit (EvMakedirs dir) >>
  modify (fun s => set_dirs ({[dir]} ∪ dirs s) s).

(** [torch.save(state, path)]: the file holds the pickled dict. *)
Definition torch_save (state : gmap string CkVal) (path : string) : M unit :=
  emit (EvTorchSave path) >>
  modify (fun s => set_files (<[path := Pickle state]> (files s)) s).

(** [torch.load(path)] *)
Definition torch_load (path : string) : M (gmap string CkVal) :=
  emit (EvTorchLoad path) >>
  let* f := gets (fun s => files s !! path) in
  match f with
  | Some (Pickle d) => ret d
  | Some Garbage => raise (UnpicklingError path)
  | None => raise (FileNotFoundError path)
  end.

(** [shutil.copyfile(src, dst)] *)
Definition shutil_copyfile (src dst : string) : M unit :=
  emit (EvCopyfile src dst) >>
  let* f := gets (fun s => files s !! src) in
  match f with
  | Some c => modify (fun s => set_files (<[dst := c]> (files s)) s)
  | None => raise (FileNotFoundError src)
  end.

(** [d[key]] *)
Definition getitem (d : gmap string CkVal) (key : string) : M CkVal :=
  match d !! key with
  | Some v => ret v
  | None => raise (KeyError key)
  end.

(** The three uses of a checkpoint entry.  A value of the wrong kind
    is refused where it is read (Python would fail at its first use). *)
Definition as_int (v : CkVal) : M Z :=
  match v with CInt z => ret z | _ => raise TypeError end.
Definition as_float (v : CkVal) : M Q :=
  match v with CFloat q => ret q | _ => raise TypeError end.
Definition as_state_dict (v : CkVal) : M Weights :=
  match v with CStateDict w => ret w | _ => raise TypeError end.

(** [model.load_state_dict(sd)]: the model takes the weights of [sd]. *)
Definition load_state_dict (sd : CkVal) : M Weights :=
  let* w := as_state_dict sd in
  emit (EvLoadStateDict w) >>
  ret w.

(** [torch.optim.SGD(model.parameters(), args.lr, momentum=args.momentum,
    nesterov=True, weight_decay=args.weight_decay)]: one parameter
    group holding the hyper-parameters. *)
Definition torch_optim_SGD (lr momentum : Q) (nesterov : bool) (weight_decay : Q) : M SGD :=
  emit EvSGD >>
  ret {| param_groups :=
           [ <["params" := PParams]>
             (<["lr" := PFloat lr]>
             (<["momentum" := PFloat momentum]>
             (<["dampening" := PFloat 0%Q]>
             (<["weight_decay" := PFloat weight_decay]>
             (<["nesterov" := PBool nesterov]> ∅))))) ] |}.

(** The calls of [train], [validate] and [test], on the current [args]
    and hidden state. *)
Definition call_train (loader : Loader) (model : Weights) (optimizer : SGD) (epoch : Z)
  : M (Weights * SGD) :=
  emit (EvTrain loader epoch) >>
  let* a := gets args in
  let* x := gets ext in
  let '(model', optimizer', x') := train loader model optimizer epoch a x in
  modify (set_ext x') >>
  ret (model', optimizer').

Definition call_validate (loader : Loader) (model : Weights) (epoch : Z) : M Q :=
  let* a := gets args in
  let* x := gets ext in
  let '(prec1, x') := validate loader model epoch a x in
  modify (set_ext x') >>
  emit (EvValidate loader epoch prec1) >>
  ret prec1.

Definition call_test (loader : Loader) (model : Weights) : M unit :=
  emit (EvTest loader) >>
  let* a := gets args in
  let* x := gets ext in
  modify (set_ext (test loader model a x)).

(** *** main.py, lines 201-222 *)

(** [save_checkpoint(state, is_best, filename='checkpoint.pth.tar')] *)
Definition save_checkpoint (state : gmap string CkVal) (is_best : bool)
    (filename : string) : M unit :=
  emit (EvSaveCheckpoint state is_best) >>
  let* a := gets args in
  let directory := "runs/" +:+ args.name a +:+ "/" in
  let* e := os_path_exists directory in
  when (negb e) (os_makedirs directory) >>
  let filename := directory +:+ filename in
  torch_save state filename >>
  when is_best
    (shutil_copyfile filename ("runs/" +:+ args.name a +:+ "/model_best.pth.tar")).

(** [adjust_learning_rate(optimizer, epoch)]; the optimizer is
    updated in place, here the updated optimizer is returned. *)
Definition adjust_learning_rate (optimizer : SGD) (epoch : Z) : M SGD :=
  emit (EvAdjustLearningRate epoch) >>
  let* a := gets args in
  let lr :=
    if args.imagenet a
    then (args.lr a * Qpower (1 # 10) (epoch / 30) * Qpower (1 # 10) (epoch / 60))%Q
    else (args.lr a * Qpower (1 # 10) (epoch / 150) * Qpower (1 # 10) (epoch / 225))%Q in
  when (args.tensorboard a) (log_value "learning_rate" lr epoch) >>
  ret {| param_groups := (fun param_group => <["lr" := PFloat lr]> param_group)
                           <$> param_groups optimizer |}.

(** *** main.py, lines 59-198 *)

(** The datasets of lines 107-119. *)
Inductive Dataset := TrainSet | ValSet | TestSet.

(** [data.DataLoader(ds, ...)] *)
Definition DataLoader (ds : Dataset) : Loader :=
  match ds with
  | TrainSet => TrainLoader
  | ValSet => ValLoader
  | TestSet => TestLoader
  end.

(** Lines 107-125: the loaders; [test_ds] and [test_loader] are
    assigned on some paths only. *)
Definition load_data : M (Loader * Loader * option Loader) :=
  let* a := gets args in
  let test_ds := if args.imagenet a then None else Some TestSet in
  let train_loader := DataLoader TrainSet in
  let val_loader := DataLoader ValSet in
  let* test_loader :=
    (if negb (args.imagenet a)
     then let* ds := local "test_ds" test_ds in ret (Some (DataLoader ds))
     else ret None) in
  ret (train_loader, val_loader, test_loader).

(** Lines 147-150 and 161-164: the globals and the model take the
    entries of a loaded checkpoint. *)
Definition restore (checkpoint : gmap string CkVal) : M Weights :=
  let* v := getitem checkpoint "epoch" in
  let* e := as_int v in
  modify (fun s => set_args (args.set_start_epoch e (args s)) s) >>
  let* v := getitem checkpoint "best_prec1" in
  let* b := as_float v in
  modify (set_best_prec1 b) >>
  let* v := getitem checkpoint "state_dict" in
  load_state_dict v.

(** Lines 144-153: optionally resume from a checkpoint. *)
Definition resume (model : Weights) : M Weights :=
  let* a := gets args in
  if truthy (args.resume a) then
    let* found := os_path_isfile (args.resume a) in
    if found then
      print (LoadingCheckpoint (args.resume a)) >>
      let* checkpoint := torch_load (args.resume a) in
      let* model := restore checkpoint in
      let* a := gets args in
      let* v := getitem checkpoint "epoch" in
      let* e := as_int v in
      print (LoadedCheckpoint (args.resume a) e) >>
      ret model
    else
      print (NoCheckpointFound (args.resume a)) >>
      ret model
  else ret model.

(** Lines 158-168: the body of the test branch. *)
Definition test_only (test_loader : option Loader) (model : Weights) : M unit :=
  modify (fun s =>
    set_args (args.set_test ("runs/" +:+ args.test (args s) +:+ "/checkpoint.pth.tar")
                            (args s)) s) >>
  let* a := gets args in
  let* found := os_path_isfile (args.test a) in
  if found then
    print (LoadingModel (args.test a)) >>
    let* checkpoint := torch_load (args.test a) in
    let* model := restore checkpoint in
    let* a := gets args in
    print (LoadedModel (args.test a)) >>
    let* loader := local "test_loader" test_loader in
    call_test loader model
  else
    print (NoModelFound (args.test a)).

(** Lines 179-194: one iteration of the epoch loop.  The locals the
    iteration updates are [model] and [optimizer]. *)
Definition epoch_body (train_loader val_loader : Loader) (epoch : Z)
    (locals : Weights * SGD) : M (Weights * SGD) :=
  let '(model, optimizer) := locals in
  let* optimizer := adjust_learning_rate optimizer epoch in
  let* (model, optimizer) := call_train train_loader model optimizer epoch in
  let* prec1 := call_validate val_loader model epoch in
  let* best := gets best_prec1 in
  let is_best := Qgt_bool prec1 best in
  modify (set_best_prec1 (py_max prec1 best)) >>
  let* best := gets best_prec1 in
  save_checkpoint
    (<["epoch" := CInt (epoch + 1)]>
     (<["state_dict" := CStateDict model]>
     (<["best_prec1" := CFloat best]> ∅)))
    is_best "checkpoint.pth.tar" >>
  ret (model, optimizer).

(** [for x in xs: acc = body(x, acc)] *)
Fixpoint for_each {A B} (xs : list A) (body : A -> B -> M B) (acc : B) : M B :=
  match xs with
  | [] => ret acc
  | x :: xs' => let* acc' := body x acc in for_each xs' body acc'
  end.

(** Lines 172-198: the optimizer, the epoch loop and the final test.
    The criterion is a constant of the framework and is left out of
    the calls. *)
Definition fit (train_loader val_loader : Loader) (test_loader : option Loader)
    (model : Weights) : M unit :=
  let* a := gets args in
  let* optimizer :=
    torch_optim_SGD (args.lr a) (args.momentum a) true (args.weight_decay a) in
  let* a := gets args in
  let* (model, optimizer) :=
    for_each (range (args.start_epoch a) (args.epochs a))
             (epoch_body train_loader val_loader) (model, optimizer) in
  let* best := gets best_prec1 in
  print (BestAccuracy best) >>
  let* a := gets args in
  if negb (args.imagenet a) then
    let* loader := local "test_loader" test_loader in
    call_test loader model
  else ret tt.

(** Lines 155-198: the test branch with its early return, or
    training.  [cudnn.benchmark = True] has no counterpart here. *)
Definition test_or_fit (train_loader val_loader : Loader) (test_loader : option Loader)
    (model : Weights) : M unit :=
  let* a := gets args in
  if truthy (args.test a) && negb (args.imagenet a) then
    test_only test_loader model
  else
    fit train_loader val_loader test_loader model.

(** [main()]; [args = parser.parse_args()] is the [args] of the
    state it starts in. *)
Definition main : M unit :=
  let* a := gets args in
  when (args.tensorboard a) (configure ("runs/" +:+ args.name a)) >>
  let* (train_loader, val_loader, test_loader) := load_data in
  let model := DenseNet a in
  print (NumberOfModelParameters (nelement model)) >>
  let* model := resume model in
  test_or_fit train_loader val_loader test_loader model.

(** *** Vocabulary of the statements *)

(** The rate [adjust_learning_rate] computes at [epoch]. *)
Definition scheduled_lr (a : args.t) (epoch : Z) : Q :=
  if args.imagenet a
  then (args.lr a * Qpower (1 # 10) (epoch / 30) * Qpower (1 # 10) (epoch / 60))%Q
  else (args.lr a * Qpower (1 # 10) (epoch / 150) * Qpower (1 # 10) (epoch / 225))%Q.

(** The state of a fresh process: [best_prec1 = 0.] (line 55), no
    call made yet. *)
Definition start (parsed : args.t) (fs : gmap string File) (ds : gset string)
    (x : Ext) : State :=
  {| args := parsed; best_prec1 := 0%Q; files := fs; dirs := ds; ext := x; trace := [] |}.

(** The rate the documentation promises: the initial rate, a tenth of
    it from the first milestone, a hundredth from the second. *)
Definition documented_lr (a : args.t) (epoch : Z) : Q :=
  let '(first, second) := if args.imagenet a then (30, 60) else (150, 225) in
  if epoch <? first then args.lr a
  else if epoch <? second then (args.lr a / (10 # 1))%Q
  else (args.lr a / (100 # 1))%Q.

(** The state [save_checkpoint] leaves. *)
Definition saved (state : gmap string CkVal) (is_best : bool) (filename : string)
    (s : State) : State :=
  let directory := "runs/" +:+ args.name (args s) +:+ "/" in
  let path := directory +:+ filename in
  let best := "runs/" +:+ args.name (args s) +:+ "/model_best.pth.tar" in
  let existed :=
    bool_decide (directory ∈ dirs s) || bool_decide (is_Some (files s !! directory)) in
  {| args := args s;
     best_prec1 := best_prec1 s;
     files := if is_best
              then <[best := Pickle state]> (<[path := Pickle state]> (files s))
              else <[path := Pickle state]> (files s);
     dirs := if existed then dirs s else {[directory]} ∪ dirs s;
     ext := ext s;
     trace := trace s ++ EvSaveCheckpoint state is_best
                :: (if existed then [] else [EvMakedirs directory])
                ++ EvTorchSave path
                :: (if is_best then [EvCopyfile path best] else []) |}.

(** The dict the epoch loop hands to [save_checkpoint]. *)
Definition checkpoint_of (epoch : Z) (model : Weights) (best : Q) : gmap string CkVal :=
  <["epoch" := CInt (epoch + 1)]>
  (<["state_dict" := CStateDict model]>
  (<["best_prec1" := CFloat best]> ∅)).

(** The calls made inside [adjust_learning_rate] and inside
    [save_checkpoint]. *)
Definition is_log_value (ev : Event) : Prop :=
  match ev with EvLogValue _ _ _ => True | _ => False end.
Definition is_file_call (ev : Event) : Prop :=
  match ev with
  | EvMakedirs _ | EvTorchSave _ | EvCopyfile _ _ => True
  | _ => False
  end.

(** The calls of one epoch: [adjust_learning_rate], [train],
    [validate], [save_checkpoint], each with the calls it makes
    itself, and nothing else. *)
Definition epoch_block (train_loader val_loader : Loader) (epoch : Z)
    (block : list Event) : Prop :=
  exists logged prec1 state is_best written,
    block = EvAdjustLearningRate epoch :: logged
              ++ [EvTrain train_loader epoch;
                  EvValidate val_loader epoch prec1;
                  EvSaveCheckpoint state is_best]
              ++ written
    /\ Forall is_log_value logged
    /\ Forall is_file_call written.

(** The calls made before the test branch: [configure], prints,
    [torch.load], [load_state_dict]. *)
Definition is_setup_call (ev : Event) : Prop :=
  match ev with
  | EvConfigure _ | EvPrint _ | EvTorchLoad _ | EvLoadStateDict _ => True
  | _ => False
  end.

(** The state in which [main] reaches the resume branch. *)
Definition prelude (s : State) : State :=
  log (EvPrint (NumberOfModelParameters (nelement (DenseNet (args s)))))
      (if args.tensorboard (args s)
       then log (EvConfigure ("runs/" +:+ args.name (args s))) s
       else s).

(** The calls of a run in test mode. *)
Definition is_test_mode_call (ev : Event) : Prop :=
  match ev with
  | EvConfigure _ | EvPrint _ | EvTorchLoad _ | EvLoadStateDict _ | EvTest _ => True
  | _ => False
  end.

(** No [UnboundLocalError] was raised. *)
Definition bound {A} (o : Outcome A) : Prop :=
  forall var : string, raised o <> Some (UnboundLocalError var).

(** The file is a checkpoint dict with the three entries [restore]
    reads. *)
Definition holds_checkpoint (f : File) (e : Z) (b : Q) (w : Weights) : Prop :=
  exists d, f = Pickle d
            /\ d !! "epoch" = Some (CInt e)
            /\ d !! "best_prec1" = Some (CFloat b)
            /\ d !! "state_dict" = Some (CStateDict w).

(** If [--resume] names an existing file, the file is a checkpoint. *)
Definition resumable (s : State) : Prop :=
  forall f : File,
    truthy (args.resume (args s)) = true ->
    files s !! args.resume (args s) = Some f ->
    exists e b w, holds_checkpoint f e b w.

(** The results of the [validate] calls of a trace. *)
Definition validated (evs : list Event) : list Q :=
  omap (fun ev => match ev with EvValidate _ _ prec1 => Some prec1 | _ => None end) evs.

(** *** main.py, lines 66-119: the transforms and the split *)

(** The transforms the driver composes; [Normalize] is the [normalize]
    of lines 66-67. *)
Inductive Transform :=
| RandomResizedCrop (size : Z)
| RandomHorizontalFlip
| RandomCrop (size padding : Z)
| Resize (size : Z)
| CenterCrop (size : Z)
| ToTensor
| Normalize.

(** Lines 69-104: [(transform_train, transform_test)], each the list
    handed to [transforms.Compose]. *)
Definition make_transforms (a : args.t) : list Transform * list Transform :=
  if args.imagenet a then
    let transform_train :=
      if args.augment a
      then [RandomResizedCrop 224; RandomHorizontalFlip; ToTensor; Normalize]
      else [ToTensor; Normalize] in
    let transform_test := [Resize 256; CenterCrop 224; ToTensor; Normalize] in
    (transform_train, transform_test)
  else
    let transform_train :=
      if args.augment a
      then [RandomCrop 32 4; RandomHorizontalFlip; ToTensor; Normalize]
      else [ToTensor; Normalize] in
    let transform_test := [ToTensor; Normalize] in
    (transform_train, transform_test).

(** A transform that draws random numbers. *)
Definition is_random (t : Transform) : bool :=
  match t with
  | RandomResizedCrop _ | RandomHorizontalFlip | RandomCrop _ _ => true
  | _ => false
  end.

(** A transform that fixes the size of the image. *)
Definition fixes_size (t : Transform) : bool :=
  match t with
  | RandomResizedCrop _ | RandomCrop _ _ | CenterCrop _ => true
  | _ => false
  end.

(** [int(x)] on a float: truncation toward zero. *)
Definition py_int (x : Q) : Z := Z.quot (Qnum x) (Zpos (Qden x)).

(** Lines 116-118: [(train_size, val_size)] from [ds_size = len(dataset)]. *)
Definition split_sizes (ds_size : Z) : Z * Z :=
  let val_size := py_int ((1 # 10) * inject_Z ds_size)%Q in
  let train_size := ds_size - val_size in
  (train_size, val_size).

(** The two files and the directory of a run named [n] (lines 203-209). *)
Definition run_directory (n : string) : string := "runs/" +:+ n +:+ "/".
Definition checkpoint_path (n : string) : string :=
  run_directory n +:+ "checkpoint.pth.tar".
Definition model_best_path (n : string) : string :=
  "runs/" +:+ n +:+ "/model_best.pth.tar".

(** The directories made, the copies made and the values logged by the
    calls of a trace. *)
Definition made_dirs (evs : list Event) : list string :=
  omap (fun ev => match ev with EvMakedirs d => Some d | _ => None end) evs.
Definition copies (evs : list Event) : list (string * string) :=
  omap (fun ev => match ev with EvCopyfile src dst => Some (src, dst) | _ => None end) evs.
Definition tensorboard_calls (evs : list Event) : list Event :=
  omap (fun ev => match ev with
                  | EvConfigure _ | EvLogValue _ _ _ => Some ev
                  | _ => None
                  end) evs.

(** [os.path.exists(path)] as a function of the state. *)
Definition exists_path (path : string) (s : State) : bool :=
  bool_decide (path ∈ dirs s) || bool_decide (is_Some (files s !! path)).

(** From [s] to [s'] no file but the two of the run named [n] has
    changed, no file has gone, and no directory but the run's has been
    added. *)
Definition writes_only (n : string) (s s' : State) : Prop :=
  (forall p : string,
      p <> checkpoint_path n -> p <> model_best_path n -> files s' !! p = files s !! p)
  /\ (forall p : string, is_Some (files s !! p) -> is_Some (files s' !! p))
  /\ dirs s ⊆ dirs s'
  /\ dirs s' ⊆ {[run_directory n]} ∪ dirs s.

(** ** The learning-rate schedule *)

Arguments save_checkpoint : simpl never.
Arguments adjust_learning_rate : simpl never.
Arguments epoch_body : simpl never.
Arguments restore : simpl never.
Arguments resume : simpl never.
Arguments test_only : simpl never.
Arguments fit : simpl never.
Arguments test_or_fit : simpl never.
Arguments prelude : simpl never.
Arguments main : simpl never.
Arguments for_each : simpl never.

Ltac run :=
  unfold when, print, configure, log_value, emit, local, raise, gets, modify, bind, ret;
  cbn.

Lemma adjust_learning_rate_run (optimizer : SGD) (epoch : Z) (s : State) :
  adjust_learning_rate optimizer epoch s =
  Ok {| param_groups := (fun g => <["lr" := PFloat (scheduled_lr (args s) epoch)]> g)
                          <$> param_groups optimizer |}
     (if args.tensorboard (args s)
      then log (EvLogValue "learning_rate" (scheduled_lr (args s) epoch) epoch)
               (log (EvAdjustLearningRate epoch) s)
      else log (EvAdjustLearningRate epoch) s).
Proof using Type.
  unfold adjust_learning_rate, scheduled_lr. run.
  destruct (args.tensorboard (args s)); reflexivity.
Qed.

(** C9.  [adjust_learning_rate] returns normally; the optimizer keeps
    its number of parameter groups and every group keeps every entry
    but ['lr']; the globals, the files, the directories and the
    framework state are as before; the only calls made are the call
    itself and, with [--tensorboard], one [log_value]. *)
Theorem adjust_learning_rate_frame (optimizer : SGD) (epoch : Z) (s : State) :
  exists optimizer' s' logged,
    adjust_learning_rate optimizer epoch s = Ok optimizer' s'
    /\ length (param_groups optimizer') = length (param_groups optimizer)
    /\ (forall (i : nat) (g : gmap string PVal),
          param_groups optimizer !! i = Some g ->
          exists g', param_groups optimizer' !! i = Some g'
                     /\ forall k : string, k <> "lr" -> g' !! k = g !! k)
    /\ args s' = args s
    /\ best_prec1 s' = best_prec1 s
    /\ files s' = files s
    /\ dirs s' = dirs s
    /\ ext s' = ext s
    /\ trace s' = trace s ++ EvAdjustLearningRate epoch :: logged
    /\ logged = (if args.tensorboard (args s)
                 then [EvLogValue "learning_rate" (scheduled_lr (args s) epoch) epoch]
                 else []).
Proof using Type.
  eexists _, _,
    (if args.tensorboard (args s)
     then [EvLogValue "learning_rate" (scheduled_lr (args s) epoch) epoch]
     else []).
  split; [apply adjust_learning_rate_run|].
  cbn [param_groups]. rewrite length_fmap. split; [reflexivity|].
  split.
  - intros i g Hg. exists (<["lr" := PFloat (scheduled_lr (args s) epoch)]> g).
    split.
    + rewrite list_lookup_fmap, Hg. reflexivity.
    + intros k Hk. apply lookup_insert_ne. congruence.
  - destruct (args.tensorboard (args s)); cbn;
      rewrite <- ?app_assoc; repeat split; reflexivity.
Qed.

Lemma div_in_window (e m k : Z) : 0 < m -> k * m <= e < (k + 1) * m -> e / m = k.
Proof using Type. intros Hm He. symmetry. apply (Z.div_unique e m k (e - k * m)); lia. Qed.

(** X3.  Where the computed rate is the documented one: the first 300
    epochs on CIFAR, the first 60 on ImageNet. *)
Lemma scheduled_lr_documented (a : args.t) (epoch : Z) :
  0 <= epoch < (if args.imagenet a then 60 else 300) ->
  (scheduled_lr a epoch == documented_lr a epoch)%Q.
Proof using Type.
  unfold scheduled_lr, documented_lr. destruct (args.imagenet a); intros He.
  - destruct (Z.ltb_spec epoch 30).
    + rewrite (div_in_window epoch 30 0), (div_in_window epoch 60 0) by lia.
      cbn. ring.
    + destruct (Z.ltb_spec epoch 60); [|lia].
      rewrite (div_in_window epoch 30 1), (div_in_window epoch 60 0) by lia.
      cbn. field.
  - destruct (Z.ltb_spec epoch 150).
    + rewrite (div_in_window epoch 150 0), (div_in_window epoch 225 0) by lia.
      cbn. ring.
    + destruct (Z.ltb_spec epoch 225).
      * rewrite (div_in_window epoch 150 1), (div_in_window epoch 225 0) by lia.
        cbn. field.
      * rewrite (div_in_window epoch 150 1), (div_in_window epoch 225 1) by lia.
        cbn. field.
Qed.

(** On CIFAR the computed rate leaves the documented one at epoch 300. *)
Lemma scheduled_lr_cifar_epoch_300 :
  (scheduled_lr args.defaults 300 == 1 # 10000)%Q
  /\ (documented_lr args.defaults 300 == 1 # 1000)%Q.
Proof using Type. split; reflexivity. Qed.

(** C2.  On ImageNet, with the default rate 0.1, the call for epoch 60
    writes 0.0001 into every parameter group, a thousandth of the
    initial rate, where the documented schedule has a hundredth. *)
Theorem adjust_learning_rate_imagenet_epoch_60
    (optimizer : SGD) (fs : gmap string File) (ds : gset string) (x : Ext) :
  exists optimizer' s',
    adjust_learning_rate optimizer 60 (start imagenet_args fs ds x) = Ok optimizer' s'
    /\ (forall g : gmap string PVal, g ∈ param_groups optimizer' ->
          exists q, g !! "lr" = Some (PFloat q)
                    /\ (q == 1 # 10000)%Q
                    /\ ~ (q == documented_lr imagenet_args 60)%Q)
    /\ (documented_lr imagenet_args 60 == 1 # 1000)%Q.
Proof using Type.
  eexists _, _. split; [apply adjust_learning_rate_run|].
  split; [|reflexivity].
  intros g Hg. cbn [param_groups] in Hg.
  apply list_elem_of_fmap in Hg as (g0 & -> & _).
  eexists. split; [apply lookup_insert_eq|].
  split; [reflexivity|]. intros H. discriminate H.
Qed.

(** ** One epoch *)

Lemma save_checkpoint_run (state : gmap string CkVal) (is_best : bool)
    (filename : string) (s : State) :
  save_checkpoint state is_best filename s = Ok tt (saved state is_best filename s).
Proof using Type.
  unfold save_checkpoint, saved, os_path_exists, os_makedirs, torch_save,
    shutil_copyfile.
  run.
  destruct (bool_decide _ || bool_decide _); destruct is_best; cbn;
    rewrite ?lookup_insert_eq; cbn; unfold set_files, set_dirs, log; cbn;
    rewrite <- ?app_assoc; reflexivity.
Qed.

(** What one iteration does, in terms of what [train] and [validate]
    return. *)
Lemma epoch_body_run (train_loader val_loader : Loader) (epoch : Z)
    (model : Weights) (optimizer : SGD) (s : State) :
  exists model' optimizer' x1 prec1 x2,
    train train_loader model
          {| param_groups := (fun g => <["lr" := PFloat (scheduled_lr (args s) epoch)]> g)
                               <$> param_groups optimizer |}
          epoch (args s) (ext s) = (model', optimizer', x1)
    /\ validate val_loader model' epoch (args s) x1 = (prec1, x2)
    /\ epoch_body train_loader val_loader epoch (model, optimizer) s =
       Ok (model', optimizer')
          (saved (checkpoint_of epoch model' (py_max prec1 (best_prec1 s)))
                 (Qgt_bool prec1 (best_prec1 s)) "checkpoint.pth.tar"
                 {| args := args s;
                    best_prec1 := py_max prec1 (best_prec1 s);
                    files := files s;
                    dirs := dirs s;
                    ext := x2;
                    trace := trace s ++ EvAdjustLearningRate epoch
                               :: (if args.tensorboard (args s)
                                   then [EvLogValue "learning_rate"
                                           (scheduled_lr (args s) epoch) epoch]
                                   else [])
                               ++ [EvTrain train_loader epoch;
                                   EvValidate val_loader epoch prec1] |}).
Proof using Type.
  destruct (train train_loader model
              {| param_groups := (fun g => <["lr" := PFloat (scheduled_lr (args s) epoch)]> g)
                                   <$> param_groups optimizer |}
              epoch (args s) (ext s)) as [[model' optimizer'] x1] eqn:Htrain.
  destruct (validate val_loader model' epoch (args s) x1) as [prec1 x2] eqn:Hval.
  exists model', optimizer', x1, prec1, x2.
  do 2 (split; [first [reflexivity | assumption]|]).
  unfold epoch_body. unfold bind at 1. rewrite adjust_learning_rate_run.
  unfold call_train, call_validate. run.
  destruct (args.tensorboard (args s)); cbn; rewrite Htrain; cbn;
    rewrite Hval; cbn; rewrite save_checkpoint_run;
    unfold checkpoint_of, set_best_prec1, set_ext, log; cbn;
    rewrite <- ?app_assoc; reflexivity.
Qed.

Lemma py_max_ge_l (x y : Q) : (x <= py_max x y)%Q.
Proof using Type.
  unfold py_max, Qgt_bool. destruct (Qle_bool y x) eqn:E; cbn.
  - apply Qle_refl.
  - apply Qlt_le_weak, Qnot_le_lt. intros H. apply Qle_bool_iff in H. congruence.
Qed.

Lemma py_max_ge_r (x y : Q) : (y <= py_max x y)%Q.
Proof using Type.
  unfold py_max, Qgt_bool. destruct (Qle_bool y x) eqn:E; cbn.
  - apply Qle_bool_iff, E.
  - apply Qle_refl.
Qed.

Lemma py_max_cases (x y : Q) : py_max x y = x \/ py_max x y = y.
Proof using Type. unfold py_max. destruct (Qgt_bool y x); auto. Qed.

Lemma Qgt_bool_spec (x y : Q) : Qgt_bool x y = true <-> (y < x)%Q.
Proof using Type.
  unfold Qgt_bool. rewrite negb_true_iff. split.
  - intros E. apply Qnot_le_lt. intros H. apply Qle_bool_iff in H. congruence.
  - intros H. destruct (Qle_bool x y) eqn:E; [|reflexivity].
    apply Qle_bool_iff in E. exfalso. exact (Qlt_not_le _ _ H E).
Qed.

(** One iteration never raises; it leaves [args] alone, moves
    [best_prec1] to the larger of itself and the epoch's prec1, and
    makes the calls of one block. *)
Lemma epoch_body_spec (train_loader val_loader : Loader) (epoch : Z)
    (model : Weights) (optimizer : SGD) (s : State) :
  exists model' optimizer' s' prec1 block,
    epoch_body train_loader val_loader epoch (model, optimizer) s
      = Ok (model', optimizer') s'
    /\ args s' = args s
    /\ best_prec1 s' = py_max prec1 (best_prec1 s)
    /\ trace s' = trace s ++ block
    /\ epoch_block train_loader val_loader epoch block
    /\ validated block = [prec1].
Proof using Type.
  destruct (epoch_body_run train_loader val_loader epoch model optimizer s)
    as (model' & optimizer' & x1 & prec1 & x2 & _ & _ & Hrun).
  eexists model', optimizer', _, prec1, _. split; [exact Hrun|].
  unfold saved; cbn. do 2 (split; [reflexivity|]).
  split; [rewrite <- app_assoc; cbn; rewrite <- app_assoc; reflexivity|].
  split.
  - eexists _, prec1, _, _, _. split; [reflexivity|]. split.
    + destruct (args.tensorboard (args s)); repeat constructor.
    + destruct (bool_decide _ || bool_decide _), (Qgt_bool prec1 (best_prec1 s));
        repeat constructor.
  - destruct (args.tensorboard (args s)), (bool_decide _ || bool_decide _),
      (Qgt_bool prec1 (best_prec1 s)); reflexivity.
Qed.

(** ** The epoch loop *)

Lemma for_each_cons {A B} (x : A) (xs : list A) (body : A -> B -> M B) (acc : B) :
  for_each (x :: xs) body acc = bind (body x acc) (for_each xs body).
Proof using Type. reflexivity. Qed.

(** The loop over any list of epochs: it never raises, [args] is
    untouched, the calls come in one block per epoch, and
    [best_prec1] ends as the largest of its initial value and the
    validation results. *)
Lemma for_each_epoch_spec (train_loader val_loader : Loader) (es : list Z) :
  forall (model : Weights) (optimizer : SGD) (s : State),
  exists model' optimizer' s' blocks,
    for_each es (epoch_body train_loader val_loader) (model, optimizer) s
      = Ok (model', optimizer') s'
    /\ args s' = args s
    /\ trace s' = trace s ++ concat blocks
    /\ Forall2 (epoch_block train_loader val_loader) es blocks
    /\ length (validated (concat blocks)) = length es
    /\ (best_prec1 s <= best_prec1 s')%Q
    /\ (forall p : Q, p ∈ validated (concat blocks) -> (p <= best_prec1 s')%Q)
    /\ best_prec1 s' ∈ best_prec1 s :: validated (concat blocks).
Proof using Type.
  induction es as [|e es IH]; intros model optimizer s.
  - exists model, optimizer, s, []. cbn. rewrite app_nil_r.
    repeat split; try reflexivity.
    + constructor.
    + apply Qle_refl.
    + intros p Hp. inversion Hp.
    + left.
  - destruct (epoch_body_spec train_loader val_loader e model optimizer s)
      as (model1 & optimizer1 & s1 & prec1 & block & Hrun & Hargs & Hbest & Htrace
          & Hblock & Hval).
    destruct (IH model1 optimizer1 s1)
      as (model' & optimizer' & s' & blocks & Hrun' & Hargs' & Htrace' & Hblocks
          & Hlen & Hle & Hub & Hin).
    exists model', optimizer', s', (block :: blocks).
    rewrite for_each_cons. cbn [concat]. unfold bind at 1. rewrite Hrun.
    split; [exact Hrun'|]. split; [congruence|].
    split; [rewrite Htrace', Htrace, app_assoc; reflexivity|].
    split; [constructor; assumption|].
    unfold validated in *. rewrite omap_app, Hval. cbn [app length].
    split; [congruence|].
    assert (Hs1 : (best_prec1 s <= best_prec1 s1)%Q)
      by (rewrite Hbest; apply py_max_ge_r).
    assert (Hp1 : (prec1 <= best_prec1 s1)%Q)
      by (rewrite Hbest; apply py_max_ge_l).
    split; [eapply Qle_trans; eassumption|].
    split.
    + intros p Hp. apply elem_of_cons in Hp as [->|Hp].
      * eapply Qle_trans; eassumption.
      * apply Hub, Hp.
    + apply elem_of_cons in Hin as [Hin|Hin].
      * rewrite Hin, Hbest.
        destruct (py_max_cases prec1 (best_prec1 s)) as [-> | ->];
          [right; left | left].
      * right; right; exact Hin.
Qed.

(** [fit] builds the optimizer, runs the loop, prints the best
    accuracy and goes on to the final test. *)
Lemma fit_spec (train_loader val_loader : Loader) (test_loader : option Loader)
    (model : Weights) (s : State) :
  exists model' s' blocks,
    fit train_loader val_loader test_loader model s =
      (if negb (args.imagenet (args s))
       then bind (local "test_loader" test_loader) (fun loader => call_test loader model')
       else ret tt) s'
    /\ args s' = args s
    /\ trace s' = trace s ++ EvSGD :: concat blocks
                    ++ [EvPrint (BestAccuracy (best_prec1 s'))]
    /\ Forall2 (epoch_block train_loader val_loader)
               (range (args.start_epoch (args s)) (args.epochs (args s))) blocks.
Proof using Type.
  unfold fit, torch_optim_SGD. run.
  match goal with
  | |- context [for_each ?es ?f (model, ?o) ?s0] =>
      destruct (for_each_epoch_spec train_loader val_loader es model o s0)
        as (model' & optimizer' & s1 & blocks & Hrun & Hargs & Htrace & Hblocks & _)
  end.
  rewrite Hrun. cbn in Hargs, Htrace. cbn. rewrite Hargs.
  exists model', (log (EvPrint (BestAccuracy (best_prec1 s1))) s1), blocks.
  split; [reflexivity|]. split; [exact Hargs|]. split; [|exact Hblocks].
  cbn. rewrite Htrace, <- !app_assoc. reflexivity.
Qed.

(** C1.  From the optimizer's construction to the print of the best
    accuracy the calls of the driver are one block per epoch of
    [range(args.start_epoch, args.epochs)], in order; the epoch at
    position [i] is [args.start_epoch + i]; a block is
    [adjust_learning_rate], [train], [validate], [save_checkpoint] for
    that epoch, with the calls these make themselves. *)
Theorem epoch_loop_order (train_loader val_loader : Loader)
    (test_loader : option Loader) (model : Weights) (s : State) :
  let first := args.start_epoch (args s) in
  let last := args.epochs (args s) in
  exists blocks best rest,
    trace (final (fit train_loader val_loader test_loader model s))
      = trace s ++ EvSGD :: concat blocks ++ EvPrint (BestAccuracy best) :: rest
    /\ Forall2 (epoch_block train_loader val_loader) (range first last) blocks
    /\ (forall (i : nat) (e : Z),
          range first last !! i = Some e <-> e = first + Z.of_nat i /\ Z.of_nat i < last - first)
    /\ (forall e : Z, e ∈ range first last <-> first <= e < last)
    /\ (rest = [] \/ exists loader, rest = [EvTest loader]).
Proof using Type.
  intros first last.
  destruct (fit_spec train_loader val_loader test_loader model s)
    as (model' & s' & blocks & Hrun & _ & Htrace & Hblocks).
  assert (Hrest : exists rest,
    trace (final (fit train_loader val_loader test_loader model s)) = trace s' ++ rest
    /\ (rest = [] \/ exists loader, rest = [EvTest loader])).
  { rewrite Hrun. destruct (args.imagenet (args s)); cbn.
    - exists []. rewrite app_nil_r. auto.
    - destruct test_loader as [loader|]; cbn.
      + exists [EvTest loader]. eauto.
      + exists []. rewrite app_nil_r. auto. }
  destruct Hrest as (rest & Hfinal & Hrest).
  exists blocks, (best_prec1 s'), rest.
  split; [rewrite Hfinal, Htrace, <- !app_assoc; cbn; rewrite <- !app_assoc; reflexivity|].
  split; [exact Hblocks|].
  split; [intros i e; apply lookup_seqZ|].
  split; [|exact Hrest].
  intros e. unfold range. rewrite elem_of_seqZ. lia.
Qed.

(** C3.  Over any stretch [es] of the epoch loop, from any state:
    [best_prec1] does not decrease, and it ends as the maximum of its
    value at the start and the prec1 of each of the epochs run: it
    is one of these values and none of them exceeds it. *)
Theorem best_prec1_running_maximum (train_loader val_loader : Loader) (es : list Z)
    (model : Weights) (optimizer : SGD) (s : State) :
  exists model' optimizer' s' new,
    for_each es (epoch_body train_loader val_loader) (model, optimizer) s
      = Ok (model', optimizer') s'
    /\ trace s' = trace s ++ new
    /\ length (validated new) = length es
    /\ (best_prec1 s <= best_prec1 s')%Q
    /\ (forall p : Q, p ∈ best_prec1 s :: validated new -> (p <= best_prec1 s')%Q)
    /\ best_prec1 s' ∈ best_prec1 s :: validated new.
Proof using Type.
  destruct (for_each_epoch_spec train_loader val_loader es model optimizer s)
    as (model' & optimizer' & s' & blocks & Hrun & _ & Htrace & _ & Hlen & Hle & Hub & Hin).
  exists model', optimizer', s', (concat blocks).
  repeat split; try assumption.
  intros p Hp. apply elem_of_cons in Hp as [->|Hp]; [exact Hle|apply Hub, Hp].
Qed.

(** ** Checkpoints *)

Lemma checkpoint_path_ne_best (n : string) :
  ("runs/" +:+ n +:+ "/") +:+ "checkpoint.pth.tar" <> "runs/" +:+ n +:+ "/model_best.pth.tar".
Proof using Type.
  cbn. intros H. injection H as H. clear -H.
  induction n as [|c n IH]; cbn in H; [discriminate|].
  injection H as H. exact (IH H).
Qed.

Lemma checkpoint_of_entries (epoch : Z) (model : Weights) (best : Q) :
  checkpoint_of epoch model best !! "epoch" = Some (CInt (epoch + 1))
  /\ checkpoint_of epoch model best !! "state_dict" = Some (CStateDict model)
  /\ checkpoint_of epoch model best !! "best_prec1" = Some (CFloat best)
  /\ dom (checkpoint_of epoch model best) = ({["epoch"; "state_dict"; "best_prec1"]} : gset string).
Proof using Type.
  unfold checkpoint_of. split; [|split; [|split]].
  - apply lookup_insert_eq.
  - rewrite lookup_insert_ne by discriminate. apply lookup_insert_eq.
  - rewrite !lookup_insert_ne by discriminate. apply lookup_insert_eq.
  - rewrite !dom_insert_L, dom_empty_L. clear. set_solver.
Qed.

(** C4.  After the iteration for [epoch], [runs/{name}/checkpoint.pth.tar]
    holds a dict with exactly the entries [epoch + 1], the model's
    state dict and the current [best_prec1]; the directory exists, and
    was made if it did not; the file is copied to
    [runs/{name}/model_best.pth.tar] exactly when the epoch's prec1 is
    strictly above the [best_prec1] of before; no other file changes. *)
Theorem checkpoint_after_epoch (train_loader val_loader : Loader) (epoch : Z)
    (model : Weights) (optimizer : SGD) (s : State) :
  let directory := "runs/" +:+ args.name (args s) +:+ "/" in
  let path := directory +:+ "checkpoint.pth.tar" in
  let best := "runs/" +:+ args.name (args s) +:+ "/model_best.pth.tar" in
  exists model' optimizer' s' prec1 new d,
    epoch_body train_loader val_loader epoch (model, optimizer) s
      = Ok (model', optimizer') s'
    /\ trace s' = trace s ++ new
    /\ validated new = [prec1]
    /\ files s' !! path = Some (Pickle d)
    /\ d !! "epoch" = Some (CInt (epoch + 1))
    /\ d !! "state_dict" = Some (CStateDict model')
    /\ d !! "best_prec1" = Some (CFloat (best_prec1 s'))
    /\ dom d = ({["epoch"; "state_dict"; "best_prec1"]} : gset string)
    /\ os_path_exists directory s' = Ok true s'
    /\ (os_path_exists directory s = Ok false s ->
        directory ∈ dirs s' /\ EvMakedirs directory ∈ new)
    /\ (EvCopyfile path best ∈ new <-> (best_prec1 s < prec1)%Q)
    /\ ((best_prec1 s < prec1)%Q -> files s' !! best = Some (Pickle d))
    /\ (~ (best_prec1 s < prec1)%Q -> files s' !! best = files s !! best)
    /\ (forall p : string, p <> path -> p <> best -> files s' !! p = files s !! p).
Proof using Type.
  intros directory path best.
  destruct (epoch_body_run train_loader val_loader epoch model optimizer s)
    as (model' & optimizer' & x1 & prec1 & x2 & _ & _ & Hrun).
  destruct (checkpoint_of_entries epoch model' (py_max prec1 (best_prec1 s)))
    as (He & Hw & Hb & Hdom).
  assert (Hne : path <> best) by apply checkpoint_path_ne_best.
  pose proof (Qgt_bool_spec prec1 (best_prec1 s)) as Hgt.
  eexists model', optimizer', _, prec1, _,
    (checkpoint_of epoch model' (py_max prec1 (best_prec1 s))).
  split; [exact Hrun|].
  unfold saved; cbn [args best_prec1 files dirs ext trace].
  fold directory. fold path. fold best.
  split; [rewrite <- app_assoc; reflexivity|].
  split.
  { destruct (args.tensorboard (args s)), (bool_decide _ || bool_decide _),
      (Qgt_bool prec1 (best_prec1 s)); reflexivity. }
  split.
  { destruct (Qgt_bool prec1 (best_prec1 s)).
    - rewrite lookup_insert_ne by congruence. apply lookup_insert_eq.
    - apply lookup_insert_eq. }
  do 4 (split; [assumption|]).
  split.
  { unfold os_path_exists, gets. cbn [dirs files]. f_equal.
    destruct (bool_decide (directory ∈ dirs s)
              || bool_decide (is_Some (files s !! directory))) eqn:E.
    - apply orb_true_iff in E as [E|E].
      + rewrite E. reflexivity.
      + apply bool_decide_eq_true in E. apply orb_true_iff. right.
        apply bool_decide_eq_true.
        destruct (Qgt_bool prec1 (best_prec1 s));
          rewrite ?lookup_insert_is_Some'; auto.
    - apply orb_true_iff. left. apply bool_decide_eq_true. clear. set_solver. }
  split.
  { unfold os_path_exists, gets. intros H. injection H as H. rewrite H.
    split; [clear; set_solver|].
    clear. set_solver. }
  split.
  { rewrite <- Hgt. destruct (Qgt_bool prec1 (best_prec1 s)); split; intros H;
      try reflexivity.
    - clear. set_solver.
    - exfalso. revert H. clear.
      destruct (args.tensorboard (args s)), (bool_decide _ || bool_decide _);
        cbn; set_solver.
    - discriminate. }
  split.
  { intros H. apply Hgt in H. rewrite H. apply lookup_insert_eq. }
  split.
  { intros H. destruct (Qgt_bool prec1 (best_prec1 s)); [exfalso; apply H, Hgt; reflexivity|].
    apply lookup_insert_ne. congruence. }
  intros p Hp1 Hp2.
  destruct (Qgt_bool prec1 (best_prec1 s)); rewrite !lookup_insert_ne by congruence;
    reflexivity.
Qed.

(** ** Restoring a checkpoint *)

Lemma restore_run (d : gmap string CkVal) (e : Z) (b : Q) (w : Weights) (s : State) :
  d !! "epoch" = Some (CInt e) ->
  d !! "best_prec1" = Some (CFloat b) ->
  d !! "state_dict" = Some (CStateDict w) ->
  restore d s =
  Ok w {| args := args.set_start_epoch e (args s); best_prec1 := b;
          files := files s; dirs := dirs s; ext := ext s;
          trace := trace s ++ [EvLoadStateDict w] |}.
Proof using Type.
  intros He Hb Hw. unfold restore, getitem, load_state_dict.
  rewrite He, Hb, Hw. reflexivity.
Qed.

Lemma resume_off (model : Weights) (s : State) :
  truthy (args.resume (args s)) = false -> resume model s = Ok model s.
Proof using Type. intros H. unfold resume. run. rewrite H. reflexivity. Qed.

Lemma resume_missing (model : Weights) (s : State) :
  truthy (args.resume (args s)) = true ->
  files s !! args.resume (args s) = None ->
  resume model s = Ok model (log (EvPrint (NoCheckpointFound (args.resume (args s)))) s).
Proof using Type.
  intros H Hnone. unfold resume, os_path_isfile. run. rewrite H, Hnone.
  rewrite bool_decide_eq_false_2 by (intros [? ?]; discriminate). reflexivity.
Qed.

Lemma resume_checkpoint (model : Weights) (s : State) (f : File)
    (e : Z) (b : Q) (w : Weights) :
  truthy (args.resume (args s)) = true ->
  files s !! args.resume (args s) = Some f ->
  holds_checkpoint f e b w ->
  resume model s =
  Ok w {| args := args.set_start_epoch e (args s); best_prec1 := b;
          files := files s; dirs := dirs s; ext := ext s;
          trace := trace s ++ [EvPrint (LoadingCheckpoint (args.resume (args s)));
                               EvTorchLoad (args.resume (args s));
                               EvLoadStateDict w;
                               EvPrint (LoadedCheckpoint (args.resume (args s)) e)] |}.
Proof using Type.
  intros H Hf (d & -> & He & Hb & Hw).
  unfold resume, os_path_isfile, torch_load. run. rewrite H, Hf.
  rewrite bool_decide_eq_true_2 by eauto. cbn. rewrite Hf.
  erewrite restore_run by eassumption. unfold getitem. rewrite He. cbn.
  unfold log. cbn. rewrite <- !app_assoc. reflexivity.
Qed.

Lemma set_start_epoch_same (a : args.t) :
  args.set_start_epoch (args.start_epoch a) a = a.
Proof using Type. destruct a; reflexivity. Qed.

Ltac close_step :=
  cbn;
  repeat match goal with
         | |- _ /\ _ => split
         | |- Forall _ _ => repeat constructor
         | |- ?l = ?l ++ _ => symmetry; apply app_nil_r
         | |- _ ++ _ = _ ++ _ => rewrite <- ?app_assoc; reflexivity
         | |- ?a = args.set_start_epoch _ ?a => symmetry; apply set_start_epoch_same
         | |- bound _ => intros ? ?; discriminate
         | |- _ = _ => reflexivity
         end.

(** The resume branch on any file system: it only prints and loads,
    and of the globals it touches [args.start_epoch] and [best_prec1]
    only. *)
Lemma resume_any (model : Weights) (s : State) :
  exists new e,
    trace (final (resume model s)) = trace s ++ new
    /\ Forall is_setup_call new
    /\ args (final (resume model s)) = args.set_start_epoch e (args s)
    /\ files (final (resume model s)) = files s
    /\ bound (resume model s).
Proof using Type.
  unfold resume, restore, os_path_isfile, torch_load, getitem, as_int, as_float,
    load_state_dict, as_state_dict.
  run. repeat (case_match; simplify_eq; cbn); eexists _, _; close_step.
Qed.

(** The test branch on any file system. *)
Lemma test_only_any (test_loader : option Loader) (model : Weights) (s : State) :
  exists new e,
    trace (final (test_only test_loader model s)) = trace s ++ new
    /\ Forall is_test_mode_call new
    /\ args (final (test_only test_loader model s))
       = args.set_start_epoch e
           (args.set_test ("runs/" +:+ args.test (args s) +:+ "/checkpoint.pth.tar") (args s))
    /\ (is_Some test_loader -> bound (test_only test_loader model s)).
Proof using Type.
  unfold test_only, restore, os_path_isfile, torch_load, getitem, as_int, as_float,
    load_state_dict, as_state_dict, call_test.
  run. destruct test_loader as [loader|];
    repeat (case_match; simplify_eq; cbn); eexists _, _; close_step;
    intros [? ?]; discriminate.
Qed.

Lemma main_unfold (s : State) :
  main s =
  bind (resume (DenseNet (args s)))
       (test_or_fit TrainLoader ValLoader
          (if args.imagenet (args s) then None else Some TestLoader))
       (prelude s).
Proof using Type.
  unfold main, prelude, load_data. run.
  destruct (args.tensorboard (args s)); cbn;
    destruct (args.imagenet (args s)); reflexivity.
Qed.

Lemma prelude_frame (s : State) :
  args (prelude s) = args s
  /\ best_prec1 (prelude s) = best_prec1 s
  /\ files (prelude s) = files s
  /\ exists pre, trace (prelude s) = trace s ++ pre /\ Forall is_setup_call pre.
Proof using Type.
  unfold prelude. destruct (args.tensorboard (args s)); cbn;
    repeat split; eexists; (split; [rewrite <- ?app_assoc; reflexivity|]);
    repeat constructor.
Qed.

Lemma fit_bound (train_loader val_loader : Loader) (test_loader : option Loader)
    (model : Weights) (s : State) :
  (args.imagenet (args s) = false -> is_Some test_loader) ->
  raised (fit train_loader val_loader test_loader model s) = None.
Proof using Type.
  intros Hguard.
  destruct (fit_spec train_loader val_loader test_loader model s)
    as (model' & s' & blocks & -> & _).
  destruct (args.imagenet (args s)); [reflexivity|].
  destruct Hguard as [loader ->]; reflexivity.
Qed.

(** Without its guard, the use after the loop does raise. *)
Lemma fit_unguarded (train_loader val_loader : Loader) (model : Weights) (s : State) :
  args.imagenet (args s) = false ->
  raised (fit train_loader val_loader None model s)
    = Some (UnboundLocalError "test_loader").
Proof using Type.
  intros Hi.
  destruct (fit_spec train_loader val_loader None model s)
    as (model' & s' & blocks & -> & _).
  rewrite Hi. reflexivity.
Qed.

(** ** The test loader *)

(** C10.  [load_data] assigns [test_loader] exactly when
    [args.imagenet] is false, and no run of [main] raises
    [UnboundLocalError], whatever the arguments and the files. *)
Theorem test_loader_bound (s : State) :
  (exists test_loader,
      load_data s = Ok (TrainLoader, ValLoader, test_loader) s
      /\ (is_Some test_loader <-> args.imagenet (args s) = false))
  /\ bound (main s).
Proof using Type.
  split.
  - unfold load_data. run. destruct (args.imagenet (args s)); cbn; eexists;
      (split; [reflexivity|]); split; intros H; try discriminate; eauto.
    destruct H; discriminate.
  - rewrite main_unfold. unfold bind.
    destruct (resume_any (DenseNet (args s)) (prelude s))
      as (new & e & _ & _ & Hargs & _ & Hbound).
    destruct (prelude_frame s) as (Hpre & _).
    destruct (resume (DenseNet (args s)) (prelude s)) as [model s1|exn s1];
      [|exact Hbound].
    cbn in Hargs. rewrite Hpre in Hargs.
    assert (Hi : args.imagenet (args s1) = args.imagenet (args s))
      by (rewrite Hargs; reflexivity).
    unfold test_or_fit. run. rewrite Hi.
    destruct (args.imagenet (args s)) eqn:Ei.
    + rewrite andb_false_r. intros var. rewrite fit_bound; [discriminate|].
      rewrite Hi; discriminate.
    + destruct (truthy (args.test (args s1))); cbn.
      * destruct (test_only_any (Some TestLoader) model s1) as (? & ? & _ & _ & _ & Hb).
        apply Hb. eauto.
      * intros var. rewrite fit_bound; [discriminate|]. eauto.
Qed.

(** ** The branches of [main] *)

(** On a resumable state the resume branch returns. *)
Lemma resume_resumable (model : Weights) (s : State) :
  resumable s ->
  exists model' s' new e,
    resume model s = Ok model' s'
    /\ trace s' = trace s ++ new
    /\ Forall is_setup_call new
    /\ (forall p : string, EvTorchLoad p ∈ new -> p = args.resume (args s))
    /\ args s' = args.set_start_epoch e (args s)
    /\ files s' = files s.
Proof using Type.
  intros Hres. destruct (truthy (args.resume (args s))) eqn:Ht.
  - destruct (files s !! args.resume (args s)) as [f|] eqn:Hf.
    + destruct (Hres f Ht Hf) as (e & b & w & Hck).
      eexists w, _, _, e. split; [eapply resume_checkpoint; eassumption|].
      cbn. repeat split; [repeat constructor|].
      intros p Hp. clear -Hp. set_solver.
    + eexists model, _, _, _. split; [apply resume_missing; assumption|].
      cbn. repeat split; [repeat constructor| |symmetry; apply set_start_epoch_same].
      intros p Hp. clear -Hp. set_solver.
  - exists model, s, [], (args.start_epoch (args s)).
    split; [apply resume_off; assumption|].
    rewrite app_nil_r, set_start_epoch_same. repeat split; [constructor|].
    intros p Hp. clear -Hp. set_solver.
Qed.

Lemma resumable_prelude (s : State) : resumable s -> resumable (prelude s).
Proof using Type.
  destruct (prelude_frame s) as (Ha & _ & Hf & _).
  unfold resumable. rewrite Ha, Hf. auto.
Qed.

(** C8.  With [--test] and [--imagenet] both given, and a resumable
    state: after the resume branch [main] is [fit]; it returns
    normally; the only [torch.load] is that of the resume path; the
    calls after the resume branch are the optimizer's construction,
    the blocks of all epochs and the print of the best accuracy, with
    no test pass; [args.test] is left as given. *)
Theorem test_ignored_on_imagenet (s : State) :
  truthy (args.test (args s)) = true ->
  args.imagenet (args s) = true ->
  resumable s ->
  exists model s1 loads blocks best,
    main s = fit TrainLoader ValLoader None model s1
    /\ trace s1 = trace (prelude s) ++ loads
    /\ Forall is_setup_call loads
    /\ (forall p : string, EvTorchLoad p ∈ loads -> p = args.resume (args s))
    /\ raised (main s) = None
    /\ trace (final (main s))
       = trace s1 ++ EvSGD :: concat blocks ++ [EvPrint (BestAccuracy best)]
    /\ Forall2 (epoch_block TrainLoader ValLoader)
               (range (args.start_epoch (args s1)) (args.epochs (args s))) blocks
    /\ args.test (args (final (main s))) = args.test (args s).
Proof using Type.
  intros Ht Hi Hres.
  destruct (prelude_frame s) as (Hpa & _ & _ & _).
  destruct (resume_resumable (DenseNet (args s)) (prelude s) (resumable_prelude s Hres))
    as (model & s1 & loads & e & Hrun & Htrace & Hloads & Hpaths & Hargs & _).
  rewrite Hpa in Hargs, Hpaths.
  assert (Hmain : main s = fit TrainLoader ValLoader None model s1).
  { rewrite main_unfold, Hi. unfold bind. rewrite Hrun.
    unfold test_or_fit. run. rewrite Hargs. cbn. rewrite Hi, andb_false_r.
    reflexivity. }
  destruct (fit_spec TrainLoader ValLoader None model s1)
    as (model' & s' & blocks & Hfit & Hargs' & Htrace' & Hblocks).
  assert (Hi1 : args.imagenet (args s1) = true) by (rewrite Hargs; exact Hi).
  rewrite Hi1 in Hfit. cbn in Hfit.
  exists model, s1, loads, blocks, (best_prec1 s').
  rewrite Hmain, Hfit. cbn.
  repeat split; try assumption.
  - replace (args.epochs (args s)) with (args.epochs (args s1))
      by (rewrite Hargs; reflexivity).
    exact Hblocks.
  - rewrite Hargs', Hargs. reflexivity.
Qed.

Lemma test_or_fit_eq (train_loader val_loader : Loader) (test_loader : option Loader)
    (model : Weights) (s : State) :
  test_or_fit train_loader val_loader test_loader model s =
  if truthy (args.test (args s)) && negb (args.imagenet (args s))
  then test_only test_loader model s
  else fit train_loader val_loader test_loader model s.
Proof using Type.
  unfold test_or_fit. run.
  destruct (truthy (args.test (args s)) && negb (args.imagenet (args s))); reflexivity.
Qed.

(** On a resumable state [main] reaches line 155. *)
Lemma main_resumable (s : State) :
  resumable s ->
  exists model s1 pre e,
    main s = test_or_fit TrainLoader ValLoader
               (if args.imagenet (args s) then None else Some TestLoader) model s1
    /\ trace s1 = trace s ++ pre
    /\ Forall is_setup_call pre
    /\ args s1 = args.set_start_epoch e (args s)
    /\ files s1 = files s.
Proof using Type.
  intros Hres.
  destruct (prelude_frame s) as (Hpa & _ & Hpf & pre & Hpt & Hpre).
  destruct (resume_resumable (DenseNet (args s)) (prelude s) (resumable_prelude s Hres))
    as (model & s1 & loads & e & Hrun & Htrace & Hloads & _ & Hargs & Hfiles).
  exists model, s1, (pre ++ loads), e.
  split; [rewrite main_unfold; unfold bind; rewrite Hrun; reflexivity|].
  split; [rewrite Htrace, Hpt, app_assoc; reflexivity|].
  split; [apply Forall_app; split; assumption|].
  split; congruence.
Qed.

(** Outside test mode, on a resumable state, [main] goes on to [fit]:
    the epoch loop runs. *)
Lemma main_fit (s : State) :
  resumable s ->
  truthy (args.test (args s)) && negb (args.imagenet (args s)) = false ->
  exists model s1 pre e,
    main s = fit TrainLoader ValLoader
               (if args.imagenet (args s) then None else Some TestLoader) model s1
    /\ trace s1 = trace s ++ pre
    /\ Forall is_setup_call pre
    /\ args s1 = args.set_start_epoch e (args s).
Proof using Type.
  intros Hres Hmode.
  destruct (main_resumable s Hres)
    as (model & s1 & pre & e & Hmain & Htrace & Hpre & Hargs & _).
  exists model, s1, pre, e. split; [|auto].
  rewrite Hmain, test_or_fit_eq, Hargs. cbn. rewrite Hmode. reflexivity.
Qed.

Lemma test_only_missing (test_loader : option Loader) (model : Weights) (s : State) :
  let path := "runs/" +:+ args.test (args s) +:+ "/checkpoint.pth.tar" in
  files s !! path = None ->
  test_only test_loader model s =
  Ok tt {| args := args.set_test path (args s); best_prec1 := best_prec1 s;
           files := files s; dirs := dirs s; ext := ext s;
           trace := trace s ++ [EvPrint (NoModelFound path)] |}.
Proof using Type.
  intros path Hnone. unfold test_only, os_path_isfile. run. fold path.
  rewrite Hnone. rewrite bool_decide_eq_false_2 by (intros [? ?]; discriminate).
  reflexivity.
Qed.

Lemma test_only_checkpoint (loader : Loader) (model : Weights) (s : State)
    (f : File) (e : Z) (b : Q) (w : Weights) :
  let path := "runs/" +:+ args.test (args s) +:+ "/checkpoint.pth.tar" in
  files s !! path = Some f ->
  holds_checkpoint f e b w ->
  test_only (Some loader) model s =
  Ok tt {| args := args.set_start_epoch e (args.set_test path (args s));
           best_prec1 := b; files := files s; dirs := dirs s;
           ext := test loader w (args.set_start_epoch e (args.set_test path (args s))) (ext s);
           trace := trace s ++ [EvPrint (LoadingModel path); EvTorchLoad path;
                                EvLoadStateDict w; EvPrint (LoadedModel path);
                                EvTest loader] |}.
Proof using Type.
  intros path Hf (d & -> & He & Hb & Hw).
  unfold test_only, os_path_isfile, torch_load, call_test. run. fold path.
  rewrite Hf. rewrite bool_decide_eq_true_2 by eauto. cbn. rewrite Hf.
  erewrite restore_run by eassumption. cbn.
  unfold set_ext, log. cbn. rewrite <- !app_assoc. reflexivity.
Qed.

Lemma setup_is_test_mode (evs : list Event) :
  Forall is_setup_call evs -> Forall is_test_mode_call evs.
Proof using Type. intros H. eapply Forall_impl; [exact H|]. intros []; cbn; auto. Qed.

(** In test mode [main] makes no call but those of the set-up, the
    loads and the test pass, whatever the files hold. *)
Lemma test_mode_calls (s : State) :
  truthy (args.test (args s)) = true ->
  args.imagenet (args s) = false ->
  exists new, trace (final (main s)) = trace s ++ new /\ Forall is_test_mode_call new.
Proof using Type.
  intros Ht Hi.
  destruct (prelude_frame s) as (Hpa & _ & _ & pre & Hpt & Hpre).
  destruct (resume_any (DenseNet (args s)) (prelude s))
    as (new & e & Htrace & Hnew & Hargs & _).
  rewrite main_unfold. unfold bind.
  destruct (resume (DenseNet (args s)) (prelude s)) as [model s1|exn s1];
    cbn in Htrace, Hargs |- *.
  - rewrite test_or_fit_eq, Hargs, Hpa. cbn. rewrite Ht, Hi. cbn.
    destruct (test_only_any (if args.imagenet (args s) then None else Some TestLoader)
                model s1) as (new' & e' & Htrace' & Hnew' & _).
    rewrite Hi in Htrace'.
    exists (pre ++ new ++ new').
    split; [rewrite Htrace', Htrace, Hpt, <- !app_assoc; reflexivity|].
    repeat (apply Forall_app; split); auto using setup_is_test_mode.
  - exists (pre ++ new).
    split; [rewrite Htrace, Hpt, <- !app_assoc; reflexivity|].
    apply Forall_app; split; auto using setup_is_test_mode.
Qed.

(** C7.  On CIFAR ([--imagenet] not set).  With [--test] given: every
    call of [main] is a set-up call, a load or a test pass, so there is
    no optimizer and no epoch; on a resumable state [args.test]
    becomes [runs/{args.test}/checkpoint.pth.tar]; if no such file
    exists [main] prints so and returns; if it holds a checkpoint
    [main] loads it, runs one test pass on the test loader and
    returns.  With [--test] empty, on a resumable state: [main]
    returns, and its calls end with the blocks of the epochs, the
    print of the best accuracy and one test pass. *)
Theorem test_mode (s : State) :
  args.imagenet (args s) = false ->
  let path := "runs/" +:+ args.test (args s) +:+ "/checkpoint.pth.tar" in
  (truthy (args.test (args s)) = true ->
     (exists new, trace (final (main s)) = trace s ++ new
                  /\ Forall is_test_mode_call new)
     /\ (resumable s ->
         args.test (args (final (main s))) = path
         /\ (files s !! path = None ->
             raised (main s) = None
             /\ exists pre,
                  trace (final (main s)) = trace s ++ pre ++ [EvPrint (NoModelFound path)]
                  /\ Forall is_setup_call pre)
         /\ (forall (f : File) (e : Z) (b : Q) (w : Weights),
               files s !! path = Some f ->
               holds_checkpoint f e b w ->
               raised (main s) = None
               /\ exists pre,
                    trace (final (main s))
                      = trace s ++ pre ++ [EvPrint (LoadingModel path); EvTorchLoad path;
                                           EvLoadStateDict w; EvPrint (LoadedModel path);
                                           EvTest TestLoader]
                    /\ Forall is_setup_call pre)))
  /\ (truthy (args.test (args s)) = false ->
      resumable s ->
      raised (main s) = None
      /\ exists pre blocks best first,
           trace (final (main s))
             = trace s ++ pre ++ EvSGD :: concat blocks
                 ++ [EvPrint (BestAccuracy best); EvTest TestLoader]
           /\ Forall is_setup_call pre
           /\ Forall2 (epoch_block TrainLoader ValLoader)
                      (range first (args.epochs (args s))) blocks).
Proof using Type.
  intros Hi path. split.
  - intros Ht. split; [apply test_mode_calls; assumption|].
    intros Hres.
    destruct (main_resumable s Hres)
      as (model & s1 & pre & e & Hmain & Htrace & Hpre & Hargs & Hfiles).
    rewrite Hi in Hmain.
    assert (Htest : args.test (args s1) = args.test (args s))
      by (rewrite Hargs; reflexivity).
    rewrite test_or_fit_eq, Hargs in Hmain. cbn in Hmain.
    rewrite Ht, Hi in Hmain. cbn in Hmain.
    split; [|split].
    + destruct (test_only_any (Some TestLoader) model s1) as (? & e' & _ & _ & Ha & _).
      rewrite Hmain, Ha, Htest. reflexivity.
    + intros Hnone. rewrite Hmain, test_only_missing; rewrite Htest; fold path;
        [|rewrite Hfiles; exact Hnone].
      cbn. split; [reflexivity|]. exists pre.
      split; [rewrite Htrace, <- app_assoc; reflexivity|assumption].
    + intros f e0 b w Hf Hck.
      rewrite Hmain, (test_only_checkpoint TestLoader model s1 f e0 b w);
        rewrite ?Htest; fold path; [|rewrite Hfiles; exact Hf|exact Hck].
      cbn. split; [reflexivity|]. exists pre.
      split; [rewrite Htrace, <- app_assoc; reflexivity|assumption].
  - intros Ht Hres.
    destruct (main_resumable s Hres)
      as (model & s1 & pre & e & Hmain & Htrace & Hpre & Hargs & Hfiles).
    rewrite Hi in Hmain.
    rewrite test_or_fit_eq, Hargs in Hmain. cbn in Hmain.
    rewrite Ht in Hmain. cbn in Hmain.
    destruct (fit_spec TrainLoader ValLoader (Some TestLoader) model s1)
      as (model' & s' & blocks & Hfit & Hargs' & Htrace' & Hblocks).
    rewrite Hargs in Hfit. cbn in Hfit. rewrite Hi in Hfit. cbn in Hfit.
    rewrite Hmain, Hfit. cbn. split; [reflexivity|].
    exists pre, blocks, (best_prec1 s'), (args.start_epoch (args s1)).
    split; [rewrite Htrace', Htrace, <- !app_assoc; cbn; rewrite <- !app_assoc;
            reflexivity|].
    split; [assumption|].
    replace (args.epochs (args s)) with (args.epochs (args s1))
      by (rewrite Hargs; reflexivity).
    exact Hblocks.
Qed.

(** ** Resuming *)

(** C6.  From the state of a fresh process, with [--resume] given.
    If the path holds a checkpoint, [main] goes on from line 155 with
    the checkpoint's epoch as [args.start_epoch], its [best_prec1] and
    its weights as the model, having made no call but prints, the load
    and [load_state_dict].  If the path is not a file, [main] prints
    that no checkpoint was found and goes on with the arguments as
    given, [best_prec1 = 0] and the fresh model; outside test mode it
    then returns normally, having run the epochs of
    [range(args.start_epoch, args.epochs)]. *)
Theorem resume_branch (a : args.t) (fs : gmap string File) (ds : gset string) (x : Ext) :
  let s := start a fs ds x in
  let test_loader := if args.imagenet a then None else Some TestLoader in
  truthy (args.resume a) = true ->
  (forall (f : File) (e : Z) (b : Q) (w : Weights),
      fs !! args.resume a = Some f ->
      holds_checkpoint f e b w ->
      exists s1,
        main s = test_or_fit TrainLoader ValLoader test_loader w s1
        /\ args s1 = args.set_start_epoch e a
        /\ best_prec1 s1 = b
        /\ files s1 = fs
        /\ trace s1 = trace (prelude s)
                        ++ [EvPrint (LoadingCheckpoint (args.resume a));
                            EvTorchLoad (args.resume a);
                            EvLoadStateDict w;
                            EvPrint (LoadedCheckpoint (args.resume a) e)])
  /\ (fs !! args.resume a = None ->
      exists s1,
        main s = test_or_fit TrainLoader ValLoader test_loader (DenseNet a) s1
        /\ args s1 = a
        /\ best_prec1 s1 = 0%Q
        /\ files s1 = fs
        /\ trace s1 = trace (prelude s) ++ [EvPrint (NoCheckpointFound (args.resume a))]
        /\ (truthy (args.test a) && negb (args.imagenet a) = false ->
            raised (main s) = None
            /\ exists blocks best rest,
                 trace (final (main s))
                   = trace s1 ++ EvSGD :: concat blocks
                       ++ EvPrint (BestAccuracy best) :: rest
                 /\ Forall2 (epoch_block TrainLoader ValLoader)
                            (range (args.start_epoch a) (args.epochs a)) blocks)).
Proof using Type.
  intros s test_loader Ht.
  destruct (prelude_frame s) as (Hpa & Hpb & Hpf & _).
  change (args s) with a in Hpa. change (files s) with fs in Hpf.
  change (best_prec1 s) with 0%Q in Hpb.
  split.
  - intros f e b w Hf Hck.
    pose proof (resume_checkpoint (DenseNet a) (prelude s) f e b w) as Hrun.
    rewrite Hpa, Hpf in Hrun. specialize (Hrun Ht Hf Hck).
    eexists. split; [rewrite main_unfold; change (args s) with a; unfold bind;
                     rewrite Hrun; reflexivity|].
    cbn. auto.
  - intros Hnone.
    pose proof (resume_missing (DenseNet a) (prelude s)) as Hrun.
    rewrite Hpa, Hpf in Hrun. specialize (Hrun Ht Hnone).
    assert (Hmain : main s = test_or_fit TrainLoader ValLoader test_loader (DenseNet a)
                               (log (EvPrint (NoCheckpointFound (args.resume a))) (prelude s))).
    { rewrite main_unfold; change (args s) with a; unfold bind; rewrite Hrun;
      reflexivity. }
    eexists. split; [exact Hmain|]. cbn.
    do 4 (split; [auto|]).
    intros Hmode. rewrite Hmain, test_or_fit_eq. cbn. rewrite Hpa, Hmode.
    split.
    + apply fit_bound. cbn. rewrite Hpa. subst test_loader. intros ->. eauto.
    + destruct (fit_spec TrainLoader ValLoader test_loader (DenseNet a)
                  (log (EvPrint (NoCheckpointFound (args.resume a))) (prelude s)))
        as (model' & s' & blocks & Hfit & Hargs' & Htrace' & Hblocks).
      cbn in Hblocks, Htrace'. rewrite Hpa in Hblocks.
      assert (Hrest : exists rest, trace (final (fit TrainLoader ValLoader test_loader
                        (DenseNet a)
                        (log (EvPrint (NoCheckpointFound (args.resume a))) (prelude s))))
                      = trace s' ++ rest).
      { rewrite Hfit. cbn. rewrite Hpa. subst test_loader.
        destruct (args.imagenet a); cbn; eexists; try reflexivity.
        symmetry; apply app_nil_r. }
      destruct Hrest as (rest & Hrest).
      exists blocks, (best_prec1 s'), rest.
      split; [|exact Hblocks].
      rewrite Hrest, Htrace', <- !app_assoc. cbn. rewrite <- !app_assoc. reflexivity.
Qed.

(** ** Saving, then resuming *)

Lemma epoch_body_saves (train_loader val_loader : Loader) (epoch : Z)
    (model : Weights) (optimizer : SGD) (s : State) :
  exists model' optimizer' s1,
    epoch_body train_loader val_loader epoch (model, optimizer) s
      = Ok (model', optimizer') s1
    /\ files s1 !! (("runs/" +:+ args.name (args s) +:+ "/") +:+ "checkpoint.pth.tar")
       = Some (Pickle (checkpoint_of epoch model' (best_prec1 s1))).
Proof using Type.
  destruct (epoch_body_run train_loader val_loader epoch model optimizer s)
    as (model' & optimizer' & x1 & prec1 & x2 & _ & _ & Hrun).
  eexists model', optimizer', _. split; [exact Hrun|].
  unfold saved; cbn [args best_prec1 files dirs ext trace].
  destruct (Qgt_bool prec1 (best_prec1 s)).
  - rewrite lookup_insert_ne; [apply lookup_insert_eq|].
    intros H. symmetry in H. revert H. apply checkpoint_path_ne_best.
  - apply lookup_insert_eq.
Qed.

(** [restore] returns only on a dict that has the three keys. *)
Lemma restore_reads (d : gmap string CkVal) (s : State) (w : Weights) (s' : State) :
  restore d s = Ok w s' ->
  ({["epoch"; "state_dict"; "best_prec1"]} : gset string) ⊆ dom d.
Proof using Type.
  unfold restore, getitem, as_int, as_float, load_state_dict, as_state_dict. run.
  intros H.
  destruct (d !! "epoch") eqn:He; [|discriminate].
  destruct (d !! "best_prec1") eqn:Hb; [|repeat case_match; discriminate].
  destruct (d !! "state_dict") eqn:Hw; [|repeat case_match; discriminate].
  intros k Hk. apply elem_of_dom.
  assert (k = "epoch" \/ k = "state_dict" \/ k = "best_prec1") as [->|[->| ->]]
    by (clear -Hk; set_solver); eauto.
Qed.

(** [restore] looks at no other key. *)
Lemma restore_reads_only (d d' : gmap string CkVal) (s : State) :
  d !! "epoch" = d' !! "epoch" ->
  d !! "state_dict" = d' !! "state_dict" ->
  d !! "best_prec1" = d' !! "best_prec1" ->
  restore d s = restore d' s.
Proof using Type.
  intros He Hw Hb. unfold restore, getitem. rewrite He, Hw, Hb. reflexivity.
Qed.

(** C5.  The dict saved at the end of the iteration for [epoch] has
    exactly the keys ['epoch'], ['state_dict'], ['best_prec1'];
    [restore] needs these three keys and looks at no other; and
    resuming from the saved file, in any state where that file is
    as saved, sets [args.start_epoch] to [epoch + 1], [best_prec1] to
    the value at save time and the model to the saved weights. *)
Theorem checkpoint_round_trip (train_loader val_loader : Loader) (epoch : Z)
    (model : Weights) (optimizer : SGD) (s : State) :
  let path := ("runs/" +:+ args.name (args s) +:+ "/") +:+ "checkpoint.pth.tar" in
  exists model' optimizer' s1 d,
    epoch_body train_loader val_loader epoch (model, optimizer) s
      = Ok (model', optimizer') s1
    /\ files s1 !! path = Some (Pickle d)
    /\ dom d = ({["epoch"; "state_dict"; "best_prec1"]} : gset string)
    /\ (forall (d0 : gmap string CkVal) (s0 : State) (w : Weights) (s0' : State),
          restore d0 s0 = Ok w s0' ->
          ({["epoch"; "state_dict"; "best_prec1"]} : gset string) ⊆ dom d0)
    /\ (forall (d0 d1 : gmap string CkVal) (s0 : State),
          d0 !! "epoch" = d1 !! "epoch" ->
          d0 !! "state_dict" = d1 !! "state_dict" ->
          d0 !! "best_prec1" = d1 !! "best_prec1" ->
          restore d0 s0 = restore d1 s0)
    /\ (forall (model0 : Weights) (s2 : State),
          args.resume (args s2) = path ->
          files s2 !! path = files s1 !! path ->
          exists s3,
            resume model0 s2 = Ok model' s3
            /\ args s3 = args.set_start_epoch (epoch + 1) (args s2)
            /\ best_prec1 s3 = best_prec1 s1
            /\ files s3 = files s2).
Proof using Type.
  intros path.
  destruct (epoch_body_saves train_loader val_loader epoch model optimizer s)
    as (model' & optimizer' & s1 & Hrun & Hfile).
  fold path in Hfile.
  destruct (checkpoint_of_entries epoch model' (best_prec1 s1)) as (He & Hw & Hb & Hdom).
  exists model', optimizer', s1, (checkpoint_of epoch model' (best_prec1 s1)).
  do 3 (split; [assumption|]).
  split; [exact restore_reads|]. split; [exact restore_reads_only|].
  intros model0 s2 Hpath Hsame.
  eexists. split.
  - eapply resume_checkpoint.
    + rewrite Hpath. reflexivity.
    + rewrite Hpath, Hsame. exact Hfile.
    + eexists. split; [reflexivity|]. split; [exact He|]. split; [exact Hb|exact Hw].
  - cbn. auto.
Qed.

(** ** The data pipeline *)

(** X1.  For a dataset of [ds_size >= 0] items the validation set gets
    [ds_size // 10] of them and the training set the rest: the two
    sizes add up to [ds_size], the validation set is never the larger,
    it is empty when there are fewer than ten items, and the training
    set is empty only when the dataset is. *)
Theorem split_sizes_partition (ds_size : Z) :
  0 <= ds_size ->
  snd (split_sizes ds_size) = ds_size / 10
  /\ fst (split_sizes ds_size) + snd (split_sizes ds_size) = ds_size
  /\ 0 <= snd (split_sizes ds_size) <= fst (split_sizes ds_size)
  /\ (ds_size < 10 -> snd (split_sizes ds_size) = 0)
  /\ (0 < ds_size -> 0 < fst (split_sizes ds_size)).
Proof using Type.
  intros Hn. unfold split_sizes, py_int. cbn [fst snd Qmult Qnum Qden inject_Z].
  rewrite Z.mul_1_l. change (Z.pos (10 * 1)) with 10.
  rewrite Z.quot_div_nonneg by lia.
  pose proof (Z.div_pos ds_size 10 Hn ltac:(lia)).
  assert (ds_size / 10 * 10 <= ds_size)
    by (rewrite Z.mul_comm; apply Z.mul_div_le; lia).
  repeat split; lia.
Qed.

(** X2.  Whatever the arguments, the evaluation pipeline has no random
    transform, the training pipeline has one exactly under
    augmentation, and both end with [ToTensor] then [Normalize]; the
    training pipeline fixes the image size exactly under augmentation,
    the evaluation pipeline exactly on ImageNet. *)
Theorem make_transforms_shape (a : args.t) :
  existsb is_random (snd (make_transforms a)) = false
  /\ existsb is_random (fst (make_transforms a)) = args.augment a
  /\ (exists pre, fst (make_transforms a) = pre ++ [ToTensor; Normalize])
  /\ (exists pre, snd (make_transforms a) = pre ++ [ToTensor; Normalize])
  /\ existsb fixes_size (fst (make_transforms a)) = args.augment a
  /\ existsb fixes_size (snd (make_transforms a)) = args.imagenet a.
Proof using Type.
  unfold make_transforms.
  destruct (args.imagenet a), (args.augment a); cbn;
    repeat split;
    first [ exists []; reflexivity
          | eexists [_; _]; reflexivity ].
Qed.

(** ** More on the learning rate *)

Lemma tenth_power_le_1 (k : Z) : 0 <= k -> (Qpower (1 # 10) k <= 1)%Q.
Proof using Type.
  intros Hk. change (1 # 10) with (/ (10 # 1))%Q. rewrite Qinv_power.
  apply Qle_shift_inv_r.
  - apply Qpower_0_lt. reflexivity.
  - rewrite Qmult_1_l. apply Qpower_1_le; [discriminate|exact Hk].
Qed.

Lemma tenth_power_decreasing (k1 k2 : Z) :
  0 <= k1 <= k2 -> (Qpower (1 # 10) k2 <= Qpower (1 # 10) k1)%Q.
Proof using Type.
  intros Hk. replace k2 with (k1 + (k2 - k1)) by lia.
  rewrite Qpower_plus by discriminate.
  rewrite <- (Qmult_1_r (Qpower (1 # 10) k1)) at 2.
  apply Qmult_le_l; [apply Qpower_0_lt; reflexivity|].
  apply tenth_power_le_1. lia.
Qed.

(** X4.  With a non-negative initial rate, the rate computed for a later
    epoch is never above the rate of an earlier one (epochs from 0). *)
Theorem scheduled_lr_decreasing (a : args.t) (e1 e2 : Z) :
  (0 <= args.lr a)%Q ->
  0 <= e1 <= e2 ->
  (scheduled_lr a e2 <= scheduled_lr a e1)%Q.
Proof using Type.
  intros Hlr He.
  assert (Hstep : forall m, 0 < m ->
            (0 <= Qpower (1 # 10) (e2 / m) <= Qpower (1 # 10) (e1 / m))%Q).
  { intros m Hm. split; [apply Qpower_0_le; discriminate|].
    apply tenth_power_decreasing. split.
    - apply Z.div_pos; lia.
    - apply Z.div_le_mono; lia. }
  unfold scheduled_lr. destruct (args.imagenet a).
  - apply Qmult_le_compat_nonneg; [|apply Hstep; lia].
    split; [apply Qmult_le_0_compat; [exact Hlr|apply Hstep; lia]|].
    apply Qmult_le_compat_nonneg; [|apply Hstep; lia].
    split; [exact Hlr|apply Qle_refl].
  - apply Qmult_le_compat_nonneg; [|apply Hstep; lia].
    split; [apply Qmult_le_0_compat; [exact Hlr|apply Hstep; lia]|].
    apply Qmult_le_compat_nonneg; [|apply Hstep; lia].
    split; [exact Hlr|apply Qle_refl].
Qed.

(** X5.  For a negative epoch down to minus the first milestone (as
    [--start-epoch -5] gives) both floor divisions are [-1] and the
    rate is a hundred times the initial rate. *)
Theorem scheduled_lr_negative_epoch (a : args.t) (epoch : Z) :
  (if args.imagenet a then -30 else -150) <= epoch < 0 ->
  (scheduled_lr a epoch == args.lr a * (100 # 1))%Q.
Proof using Type.
  unfold scheduled_lr. destruct (args.imagenet a); intros He.
  - rewrite (div_in_window epoch 30 (-1)), (div_in_window epoch 60 (-1)) by lia.
    cbn. ring.
  - rewrite (div_in_window epoch 150 (-1)), (div_in_window epoch 225 (-1)) by lia.
    cbn. ring.
Qed.

(** X6.  Two calls in a row leave the optimizer as the second call alone
    would: every parameter group ends with the rate of the second
    epoch, whatever rates the groups had. *)
Theorem adjust_learning_rate_twice (optimizer : SGD) (e1 e2 : Z) (s : State) :
  exists optimizer1 s1 optimizer2 s2 s2',
    adjust_learning_rate optimizer e1 s = Ok optimizer1 s1
    /\ adjust_learning_rate optimizer1 e2 s1 = Ok optimizer2 s2
    /\ adjust_learning_rate optimizer e2 s = Ok optimizer2 s2'
    /\ length (param_groups optimizer2) = length (param_groups optimizer)
    /\ (forall g : gmap string PVal, g ∈ param_groups optimizer2 ->
          g !! "lr" = Some (PFloat (scheduled_lr (args s) e2))).
Proof using Type.
  eexists _, _, _, _, _.
  split; [apply adjust_learning_rate_run|].
  split; [apply adjust_learning_rate_run|].
  assert (Hargs : forall ev (b : bool) (s0 : State),
            args (if b then log ev s0 else s0) = args s0) by (intros ? [] ?; reflexivity).
  split.
  - rewrite adjust_learning_rate_run. f_equal. cbn [param_groups].
    rewrite Hargs. cbn [args log]. f_equal.
    rewrite <- list_fmap_compose. apply list_fmap_ext.
    intros i g _. cbn. symmetry. apply insert_insert_eq.
  - cbn [param_groups]. rewrite !length_fmap. split; [reflexivity|].
    intros g Hg. apply list_elem_of_fmap in Hg as (g0 & -> & _).
    rewrite Hargs. cbn [args log]. apply lookup_insert_eq.
Qed.

(** ** What the loop writes *)

Lemma py_max_tie (x y : Q) : Qgt_bool x y = false -> (py_max x y == y)%Q.
Proof using Type.
  unfold py_max, Qgt_bool. intros Hxy. apply negb_false_iff, Qle_bool_iff in Hxy.
  destruct (Qle_bool y x) eqn:Hyx; cbn; [|reflexivity].
  apply Qle_bool_iff in Hyx. apply Qle_antisym; assumption.
Qed.

Lemma checkpoint_ne_best (n : string) : checkpoint_path n <> model_best_path n.
Proof using Type. apply checkpoint_path_ne_best. Qed.

(** One iteration, in full: what it returns, logs, makes and writes. *)
Lemma epoch_body_effect (train_loader val_loader : Loader) (epoch : Z)
    (model : Weights) (optimizer : SGD) (s : State) :
  exists model' optimizer' s' prec1 block,
    epoch_body train_loader val_loader epoch (model, optimizer) s
      = Ok (model', optimizer') s'
    /\ args s' = args s
    /\ best_prec1 s' = py_max prec1 (best_prec1 s)
    /\ trace s' = trace s ++ block
    /\ made_dirs block
       = (if exists_path (run_directory (args.name (args s))) s
          then [] else [run_directory (args.name (args s))])
    /\ dirs s'
       = (if exists_path (run_directory (args.name (args s))) s
          then dirs s else {[run_directory (args.name (args s))]} ∪ dirs s)
    /\ exists_path (run_directory (args.name (args s))) s' = true
    /\ copies block
       = (if Qgt_bool prec1 (best_prec1 s)
          then [(checkpoint_path (args.name (args s)), model_best_path (args.name (args s)))]
          else [])
    /\ files s'
       = (if Qgt_bool prec1 (best_prec1 s)
          then <[model_best_path (args.name (args s)) :=
                   Pickle (checkpoint_of epoch model' (best_prec1 s'))]>
               (<[checkpoint_path (args.name (args s)) :=
                    Pickle (checkpoint_of epoch model' (best_prec1 s'))]> (files s))
          else <[checkpoint_path (args.name (args s)) :=
                   Pickle (checkpoint_of epoch model' (best_prec1 s'))]> (files s))
    /\ tensorboard_calls block
       = (if args.tensorboard (args s)
          then [EvLogValue "learning_rate" (scheduled_lr (args s) epoch) epoch]
          else []).
Proof using Type.
  destruct (epoch_body_run train_loader val_loader epoch model optimizer s)
    as (model' & optimizer' & x1 & prec1 & x2 & _ & _ & Hrun).
  eexists model', optimizer', _, prec1, _. split; [exact Hrun|].
  unfold saved, exists_path, checkpoint_path, model_best_path, run_directory.
  cbn [args best_prec1 files dirs ext trace].
  do 2 (split; [reflexivity|]).
  split; [rewrite <- app_assoc; reflexivity|].
  destruct (bool_decide (_ ∈ dirs s) || bool_decide _) eqn:E;
    destruct (args.tensorboard (args s));
    destruct (Qgt_bool prec1 (best_prec1 s));
    (do 2 (split; [reflexivity|]));
    (split; [|split; [reflexivity|split; reflexivity]]);
    try (apply orb_true_iff; left; apply bool_decide_eq_true; clear; set_solver);
    apply orb_true_iff in E as [E|E];
    try (rewrite E; reflexivity);
    apply bool_decide_eq_true in E; apply orb_true_iff; right;
    apply bool_decide_eq_true; rewrite ?lookup_insert_is_Some'; auto.
Qed.

(** X7.  Over the epoch loop [os.makedirs] is called at most once: not
    at all when the run's directory exists at the start or no epoch
    runs, once otherwise; after any epoch the directory exists. *)
Theorem makedirs_at_most_once (train_loader val_loader : Loader) (es : list Z)
    (model : Weights) (optimizer : SGD) (s : State) :
  exists model' optimizer' s' new,
    for_each es (epoch_body train_loader val_loader) (model, optimizer) s
      = Ok (model', optimizer') s'
    /\ trace s' = trace s ++ new
    /\ made_dirs new
       = (if exists_path (run_directory (args.name (args s))) s then []
          else match es with
               | [] => []
               | _ :: _ => [run_directory (args.name (args s))]
               end)
    /\ (es <> [] -> exists_path (run_directory (args.name (args s))) s' = true).
Proof using Type.
  revert model optimizer s. induction es as [|e es IH]; intros model optimizer s.
  - exists model, optimizer, s, []. rewrite app_nil_r.
    split; [reflexivity|]. split; [reflexivity|].
    split; [destruct (exists_path _ s); reflexivity|]. congruence.
  - destruct (epoch_body_effect train_loader val_loader e model optimizer s)
      as (model1 & optimizer1 & s1 & prec1 & block & Hrun & Hargs & _ & Htrace
          & Hmade & _ & Hexists & _).
    destruct (IH model1 optimizer1 s1)
      as (model' & optimizer' & s' & new & Hrun' & Htrace' & Hmade' & Hexists').
    rewrite Hargs in Hmade', Hexists'. rewrite Hexists in Hmade'.
    exists model', optimizer', s', (block ++ new).
    rewrite for_each_cons. unfold bind at 1. rewrite Hrun.
    split; [exact Hrun'|].
    split; [rewrite Htrace', Htrace, app_assoc; reflexivity|].
    split.
    + unfold made_dirs in *. rewrite omap_app, Hmade, Hmade', app_nil_r. reflexivity.
    + intros _. destruct es as [|e' es']; [|apply Hexists'; congruence].
      change (for_each [] (epoch_body train_loader val_loader) (model1, optimizer1) s1)
        with (Ok (model1, optimizer1) s1) in Hrun'.
      injection Hrun' as _ _ <-. exact Hexists.
Qed.

(** X8.  Over the epoch loop, either no epoch improved on
    [best_prec1] (no copy was made, [model_best.pth.tar] is as it was and
    [best_prec1] has kept its value), or [model_best.pth.tar] holds the
    checkpoint of one of the epochs run, saved with a [best_prec1] equal
    to the final one. *)
Theorem model_best_holds_best (train_loader val_loader : Loader) (es : list Z)
    (model : Weights) (optimizer : SGD) (s : State) :
  exists model' optimizer' s' new,
    for_each es (epoch_body train_loader val_loader) (model, optimizer) s
      = Ok (model', optimizer') s'
    /\ trace s' = trace s ++ new
    /\ ((copies new = []
         /\ files s' !! model_best_path (args.name (args s))
            = files s !! model_best_path (args.name (args s))
         /\ (best_prec1 s' == best_prec1 s)%Q)
        \/ (exists (e : Z) (w : Weights) (b : Q),
               e ∈ es
               /\ files s' !! model_best_path (args.name (args s))
                  = Some (Pickle (checkpoint_of e w b))
               /\ (b == best_prec1 s')%Q)).
Proof using Type.
  revert model optimizer s. induction es as [|e es IH]; intros model optimizer s.
  - exists model, optimizer, s, []. rewrite app_nil_r.
    split; [reflexivity|]. split; [reflexivity|]. left.
    split; [reflexivity|]. split; [reflexivity|]. apply Qeq_refl.
  - destruct (epoch_body_effect train_loader val_loader e model optimizer s)
      as (model1 & optimizer1 & s1 & prec1 & block & Hrun & Hargs & Hbest & Htrace
          & _ & _ & _ & Hcopies & Hfiles & _).
    destruct (IH model1 optimizer1 s1)
      as (model' & optimizer' & s' & new & Hrun' & Htrace' & Hcases).
    rewrite Hargs in Hcases.
    exists model', optimizer', s', (block ++ new).
    rewrite for_each_cons. unfold bind at 1. rewrite Hrun.
    split; [exact Hrun'|].
    split; [rewrite Htrace', Htrace, app_assoc; reflexivity|].
    destruct Hcases as [(Hnone & Hsame & Heq) | (e' & w & b & He' & Hfile & Hb)].
    + destruct (Qgt_bool prec1 (best_prec1 s)) eqn:Hgt.
      * right. exists e, model1, (best_prec1 s1).
        split; [left|]. split; [|symmetry; exact Heq].
        rewrite Hsame, Hfiles. apply lookup_insert_eq.
      * left. unfold copies in *. rewrite omap_app, Hcopies, Hnone.
        split; [reflexivity|]. split.
        -- rewrite Hsame, Hfiles. apply lookup_insert_ne, checkpoint_ne_best.
        -- rewrite Heq, Hbest. apply py_max_tie, Hgt.
    + right. exists e', w, b. split; [right; exact He'|]. split; assumption.
Qed.

(** The loop over any list of epochs: what it may write, and what it
    logs to TensorBoard. *)
Lemma for_each_epoch_frame (train_loader val_loader : Loader) (es : list Z) :
  forall (model : Weights) (optimizer : SGD) (s : State),
  exists model' optimizer' s' new,
    for_each es (epoch_body train_loader val_loader) (model, optimizer) s
      = Ok (model', optimizer') s'
    /\ args s' = args s
    /\ trace s' = trace s ++ new
    /\ writes_only (args.name (args s)) s s'
    /\ tensorboard_calls new
       = (if args.tensorboard (args s)
          then (fun e => EvLogValue "learning_rate" (scheduled_lr (args s) e) e) <$> es
          else []).
Proof using Type.
  induction es as [|e es IH]; intros model optimizer s.
  - exists model, optimizer, s, []. rewrite app_nil_r.
    do 3 (split; [reflexivity|]).
    split; [|destruct (args.tensorboard (args s)); reflexivity].
    repeat split; auto; clear; set_solver.
  - destruct (epoch_body_effect train_loader val_loader e model optimizer s)
      as (model1 & optimizer1 & s1 & prec1 & block & Hrun & Hargs & _ & Htrace
          & _ & Hdirs & _ & _ & Hfiles & Hboard).
    destruct (IH model1 optimizer1 s1)
      as (model' & optimizer' & s' & new & Hrun' & Hargs' & Htrace'
          & (Hother & Hkept & Hsub & Hsup) & Hboard').
    rewrite Hargs in Hother, Hsup, Hboard'.
    exists model', optimizer', s', (block ++ new).
    rewrite for_each_cons. unfold bind at 1. rewrite Hrun.
    split; [exact Hrun'|]. split; [congruence|].
    split; [rewrite Htrace', Htrace, app_assoc; reflexivity|].
    split.
    + split; [|split; [|split]].
      * intros p Hp1 Hp2. rewrite (Hother p Hp1 Hp2), Hfiles.
        destruct (Qgt_bool prec1 (best_prec1 s));
          rewrite !lookup_insert_ne by congruence; reflexivity.
      * intros p Hp. apply Hkept. rewrite Hfiles.
        destruct (Qgt_bool prec1 (best_prec1 s));
          rewrite !lookup_insert_is_Some'; auto.
      * etransitivity; [|exact Hsub]. rewrite Hdirs.
        destruct (exists_path _ s); clear; set_solver.
      * etransitivity; [exact Hsup|]. rewrite Hdirs.
        destruct (exists_path _ s); clear; set_solver.
    + unfold tensorboard_calls in *. rewrite omap_app, Hboard, Hboard'.
      destruct (args.tensorboard (args s)); reflexivity.
Qed.

(** X15.  With [--tensorboard] the loop logs one ['learning_rate'] value
    per epoch, in the order of the epochs, each the rate computed for
    its epoch; without it the loop logs nothing. *)
Theorem learning_rate_logged (train_loader val_loader : Loader) (es : list Z)
    (model : Weights) (optimizer : SGD) (s : State) :
  exists model' optimizer' s' new,
    for_each es (epoch_body train_loader val_loader) (model, optimizer) s
      = Ok (model', optimizer') s'
    /\ trace s' = trace s ++ new
    /\ tensorboard_calls new
       = (if args.tensorboard (args s)
          then (fun e => EvLogValue "learning_rate" (scheduled_lr (args s) e) e) <$> es
          else []).
Proof using Type.
  destruct (for_each_epoch_frame train_loader val_loader es model optimizer s)
    as (model' & optimizer' & s' & new & Hrun & _ & Htrace & _ & Hboard).
  exists model', optimizer', s', new. auto.
Qed.

(** ** What [main] writes and logs *)

Lemma writes_only_same (n : string) (s s' : State) :
  files s' = files s -> dirs s' = dirs s -> writes_only n s s'.
Proof using Type.
  intros Hf Hd. unfold writes_only. rewrite Hf, Hd.
  repeat split; auto; clear; set_solver.
Qed.

Lemma writes_only_trans (n : string) (s1 s2 s3 : State) :
  writes_only n s1 s2 -> writes_only n s2 s3 -> writes_only n s1 s3.
Proof using Type.
  intros (Ho & Hk & Hsub & Hsup) (Ho' & Hk' & Hsub' & Hsup').
  repeat split.
  - intros p Hp1 Hp2. rewrite Ho', Ho by assumption. reflexivity.
  - auto.
  - etransitivity; eassumption.
  - clear -Hsup Hsup'. set_solver.
Qed.

(** The resume branch on any file system: what it leaves alone. *)
Lemma resume_frame (model : Weights) (s : State) :
  exists new e,
    trace (final (resume model s)) = trace s ++ new
    /\ tensorboard_calls new = []
    /\ args (final (resume model s)) = args.set_start_epoch e (args s)
    /\ files (final (resume model s)) = files s
    /\ dirs (final (resume model s)) = dirs s.
Proof using Type.
  unfold resume, restore, os_path_isfile, torch_load, getitem, as_int, as_float,
    load_state_dict, as_state_dict.
  run. repeat (case_match; simplify_eq; cbn); eexists _, _; close_step.
Qed.

(** The test branch on any file system: what it leaves alone. *)
Lemma test_only_frame (test_loader : option Loader) (model : Weights) (s : State) :
  exists new,
    trace (final (test_only test_loader model s)) = trace s ++ new
    /\ tensorboard_calls new = []
    /\ files (final (test_only test_loader model s)) = files s
    /\ dirs (final (test_only test_loader model s)) = dirs s.
Proof using Type.
  unfold test_only, restore, os_path_isfile, torch_load, getitem, as_int, as_float,
    load_state_dict, as_state_dict, call_test.
  run. destruct test_loader as [loader|];
    repeat (case_match; simplify_eq; cbn); eexists; close_step.
Qed.

Lemma prelude_effect (s : State) :
  args (prelude s) = args s
  /\ files (prelude s) = files s
  /\ dirs (prelude s) = dirs s
  /\ exists pre,
       trace (prelude s) = trace s ++ pre
       /\ tensorboard_calls pre
          = (if args.tensorboard (args s)
             then [EvConfigure ("runs/" +:+ args.name (args s))]
             else []).
Proof using Type.
  unfold prelude. destruct (args.tensorboard (args s)); cbn;
    repeat split; eexists; (split; [rewrite <- ?app_assoc; reflexivity|]);
    reflexivity.
Qed.

(** [fit] from any state: what it may write and log. *)
Lemma fit_effect (train_loader val_loader : Loader) (test_loader : option Loader)
    (model : Weights) (s : State) :
  exists new,
    trace (final (fit train_loader val_loader test_loader model s)) = trace s ++ new
    /\ writes_only (args.name (args s)) s
         (final (fit train_loader val_loader test_loader model s))
    /\ (args.tensorboard (args s) = false -> tensorboard_calls new = []).
Proof using Type.
  unfold fit, torch_optim_SGD. run.
  match goal with
  | |- context [for_each ?es ?f (model, ?o) ?s0] =>
      destruct (for_each_epoch_frame train_loader val_loader es model o s0)
        as (model' & optimizer' & s1 & new & Hrun & Hargs & Htrace & Hwrites & Hboard)
  end.
  rewrite Hrun. cbn in Hargs, Htrace, Hwrites, Hboard. cbn. rewrite Hargs.
  assert (Hw : writes_only (args.name (args s)) s s1).
  { destruct Hwrites as (Ho & Hk & Hsub & Hsup). repeat split; assumption. }
  assert (Hquiet : args.tensorboard (args s) = false ->
                   tensorboard_calls ([EvSGD] ++ new) = []).
  { intros Hoff. rewrite Hoff in Hboard. unfold tensorboard_calls in *.
    rewrite omap_app, Hboard. reflexivity. }
  destruct (args.imagenet (args s)); cbn;
    [|destruct test_loader as [loader|]; cbn].
  - exists ([EvSGD] ++ new ++ [EvPrint (BestAccuracy (best_prec1 s1))]).
    split; [rewrite Htrace, <- !app_assoc; reflexivity|].
    split; [exact Hw|].
    intros Hoff. specialize (Hquiet Hoff). unfold tensorboard_calls in *.
    rewrite app_assoc, omap_app, Hquiet. reflexivity.
  - exists ([EvSGD] ++ new ++ [EvPrint (BestAccuracy (best_prec1 s1)); EvTest loader]).
    split; [rewrite Htrace, <- !app_assoc; reflexivity|].
    split; [exact Hw|].
    intros Hoff. specialize (Hquiet Hoff). unfold tensorboard_calls in *.
    rewrite app_assoc, omap_app, Hquiet. reflexivity.
  - exists ([EvSGD] ++ new ++ [EvPrint (BestAccuracy (best_prec1 s1))]).
    split; [rewrite Htrace, <- !app_assoc; reflexivity|].
    split; [exact Hw|].
    intros Hoff. specialize (Hquiet Hoff). unfold tensorboard_calls in *.
    rewrite app_assoc, omap_app, Hquiet. reflexivity.
Qed.

(** [main] from any state, whatever the files and however it ends. *)
Lemma main_effect (s : State) :
  exists new,
    trace (final (main s)) = trace s ++ new
    /\ writes_only (args.name (args s)) s (final (main s))
    /\ (args.tensorboard (args s) = false -> tensorboard_calls new = [])
    /\ (truthy (args.test (args s)) && negb (args.imagenet (args s)) = true ->
        files (final (main s)) = files s /\ dirs (final (main s)) = dirs s).
Proof using Type.
  destruct (prelude_effect s) as (Hpa & Hpf & Hpd & pre & Hpt & Hpre).
  destruct (resume_frame (DenseNet (args s)) (prelude s))
    as (loads & e & Htrace & Hloads & Hargs & Hfiles & Hdirs).
  rewrite main_unfold. unfold bind.
  destruct (resume (DenseNet (args s)) (prelude s)) as [model s1|exn s1];
    cbn in Htrace, Hargs, Hfiles, Hdirs |- *.
  - rewrite Hpa in Hargs. rewrite Hpf in Hfiles. rewrite Hpd in Hdirs.
    assert (Hs1 : writes_only (args.name (args s)) s s1)
      by (apply writes_only_same; assumption).
    rewrite test_or_fit_eq, Hargs. cbn.
    destruct (truthy (args.test (args s)) && negb (args.imagenet (args s))).
    + destruct (test_only_frame (if args.imagenet (args s) then None else Some TestLoader)
                  model s1) as (new & Htrace' & Hnew & Hfiles' & Hdirs').
      exists (pre ++ loads ++ new).
      split; [rewrite Htrace', Htrace, Hpt, <- !app_assoc; reflexivity|].
      split; [apply writes_only_same; congruence|].
      split; [|intros _; split; congruence].
      intros Hoff. rewrite Hoff in Hpre. unfold tensorboard_calls in *.
      rewrite !omap_app, Hpre, Hloads, Hnew. reflexivity.
    + destruct (fit_effect TrainLoader ValLoader
                  (if args.imagenet (args s) then None else Some TestLoader) model s1)
        as (new & Htrace' & Hwrites & Hnew).
      rewrite Hargs in Hwrites, Hnew. cbn in Hwrites, Hnew.
      exists (pre ++ loads ++ new).
      split; [rewrite Htrace', Htrace, Hpt, <- !app_assoc; reflexivity|].
      split; [eapply writes_only_trans; eassumption|].
      split; [|discriminate].
      intros Hoff. rewrite Hoff in Hpre. unfold tensorboard_calls in *.
      rewrite !omap_app, Hpre, Hloads, (Hnew Hoff). reflexivity.
  - rewrite Hpf in Hfiles. rewrite Hpd in Hdirs.
    exists (pre ++ loads).
    split; [rewrite Htrace, Hpt, <- !app_assoc; reflexivity|].
    split; [apply writes_only_same; assumption|].
    split; [|intros _; split; assumption].
    intros Hoff. rewrite Hoff in Hpre. unfold tensorboard_calls in *.
    rewrite !omap_app, Hpre, Hloads. reflexivity.
Qed.


(** X14.  Without [--tensorboard], [main] makes no call to the
    TensorBoard logger: neither [configure] nor [log_value]. *)
Theorem main_tensorboard_off (s : State) :
  args.tensorboard (args s) = false ->
  exists new,
    trace (final (main s)) = trace s ++ new
    /\ tensorboard_calls new = [].
Proof using Type.
  intros Hoff. destruct (main_effect s) as (new & Htrace & _ & Hquiet & _).
  exists new. auto.
Qed.

(** ** Interrupted, finished and empty runs *)

Lemma for_each_app {A B} (xs ys : list A) (body : A -> B -> M B) (acc : B) (s : State) :
  for_each (xs ++ ys) body acc s = bind (for_each xs body acc) (for_each ys body) s.
Proof using Type.
  revert acc s. induction xs as [|x xs IH]; intros acc s; [reflexivity|].
  cbn [app]. rewrite !for_each_cons. unfold bind in *.
  destruct (body x acc s) as [acc' s'|exn s']; [apply IH|reflexivity].
Qed.

Lemma for_each_nil {A B} (body : A -> B -> M B) (acc : B) (s : State) :
  for_each [] body acc s = Ok acc s.
Proof using Type. reflexivity. Qed.

Lemma range_empty (a b : Z) : b <= a -> range a b = [].
Proof using Type.
  intros H. unfold range, seqZ. destruct (b - a) eqn:E; try reflexivity. lia.
Qed.

Lemma range_split (a b c : Z) : a <= b <= c -> range a c = range a b ++ range b c.
Proof using Type.
  intros H. unfold range. replace (c - a) with ((b - a) + (c - b)) by lia.
  rewrite seqZ_app by lia. do 2 f_equal. lia.
Qed.

Lemma range_last (a e : Z) : a <= e -> range a (e + 1) = range a e ++ [e].
Proof using Type.
  intros H. rewrite (range_split a e (e + 1)) by lia. f_equal.
  unfold range. replace (e + 1 - e) with 1 by lia. cbn. f_equal; lia.
Qed.

(** X9.  After the loop has run the epochs [first .. e], the checkpoint
    file holds epoch [e + 1], the last model and the last [best_prec1]:
    a run resumed from it gets that model and that [best_prec1] and
    starts at [e + 1], so that the epochs already run followed by its
    own are the epochs of the uninterrupted run; resumed from the
    checkpoint of a finished run, it runs no epoch. *)
Theorem resume_continues (train_loader val_loader : Loader) (first e : Z)
    (model : Weights) (optimizer : SGD) (s : State) :
  first <= e ->
  exists model' optimizer' s1,
    for_each (range first (e + 1)) (epoch_body train_loader val_loader)
             (model, optimizer) s
      = Ok (model', optimizer') s1
    /\ forall (model0 : Weights) (s2 : State),
         args.resume (args s2) = checkpoint_path (args.name (args s)) ->
         files s2 !! checkpoint_path (args.name (args s))
           = files s1 !! checkpoint_path (args.name (args s)) ->
         exists s3,
           resume model0 s2 = Ok model' s3
           /\ args.start_epoch (args s3) = e + 1
           /\ best_prec1 s3 = best_prec1 s1
           /\ (e + 1 <= args.epochs (args s3) ->
               range first (args.epochs (args s3))
               = range first (e + 1)
                   ++ range (args.start_epoch (args s3)) (args.epochs (args s3)))
           /\ (args.epochs (args s3) <= e + 1 ->
               range (args.start_epoch (args s3)) (args.epochs (args s3)) = []).
Proof using Type.
  intros Hle. rewrite (range_last first e Hle), for_each_app. unfold bind.
  destruct (for_each_epoch_spec train_loader val_loader (range first e) model optimizer s)
    as (model1 & optimizer1 & s0 & blocks & -> & Hargs & _).
  rewrite for_each_cons. unfold bind.
  destruct (epoch_body_saves train_loader val_loader e model1 optimizer1 s0)
    as (model' & optimizer' & s1 & -> & Hfile).
  rewrite Hargs in Hfile.
  exists model', optimizer', s1. split; [reflexivity|].
  intros model0 s2 Hpath Hsame.
  destruct (checkpoint_of_entries e model' (best_prec1 s1)) as (He & Hw & Hb & _).
  eexists. split.
  - eapply resume_checkpoint.
    + rewrite Hpath. reflexivity.
    + rewrite Hpath, Hsame. exact Hfile.
    + eexists. split; [reflexivity|]. split; [exact He|]. split; [exact Hb|exact Hw].
  - cbn. split; [reflexivity|]. split; [reflexivity|]. split.
    + intros H. rewrite <- range_last by exact Hle. apply range_split. lia.
    + intros H. apply range_empty. exact H.
Qed.

(** X10.  When [args.epochs <= args.start_epoch] no epoch runs: [fit]
    builds the optimizer, prints the [best_prec1] it started with and,
    on CIFAR, still runs the test pass; it saves no checkpoint and
    leaves the files, the directories and [best_prec1] as they were. *)
Theorem fit_without_epochs (train_loader val_loader : Loader)
    (test_loader : option Loader) (model : Weights) (s : State) :
  args.epochs (args s) <= args.start_epoch (args s) ->
  trace (final (fit train_loader val_loader test_loader model s))
    = trace s ++ [EvSGD; EvPrint (BestAccuracy (best_prec1 s))]
        ++ (if args.imagenet (args s) then []
            else match test_loader with
                 | Some loader => [EvTest loader]
                 | None => []
                 end)
  /\ files (final (fit train_loader val_loader test_loader model s)) = files s
  /\ dirs (final (fit train_loader val_loader test_loader model s)) = dirs s
  /\ best_prec1 (final (fit train_loader val_loader test_loader model s)) = best_prec1 s.
Proof using Type.
  intros Hle. unfold fit, torch_optim_SGD. run.
  rewrite (range_empty _ _ Hle), for_each_nil. cbn.
  destruct (args.imagenet (args s)); cbn;
    [|destruct test_loader as [loader|]; cbn];
    rewrite <- ?app_assoc; repeat split; reflexivity.
Qed.

(** ** Incomplete checkpoints *)

Lemma bind_raise {A B} (m : M A) (k : A -> M B) (s : State) (exn : Exn) :
  raised (m s) = Some exn ->
  raised (bind m k s) = Some exn /\ final (bind m k s) = final (m s).
Proof using Type.
  unfold bind. destruct (m s); cbn; [discriminate|auto].
Qed.

(** The resume branch on a dict that lacks one of the three keys. *)
Lemma resume_key_errors (model : Weights) (s : State) (d : gmap string CkVal) :
  truthy (args.resume (args s)) = true ->
  files s !! args.resume (args s) = Some (Pickle d) ->
  (d !! "epoch" = None ->
     raised (resume model s) = Some (KeyError "epoch")
     /\ args (final (resume model s)) = args s
     /\ best_prec1 (final (resume model s)) = best_prec1 s)
  /\ (forall e : Z,
        d !! "epoch" = Some (CInt e) ->
        d !! "best_prec1" = None ->
        raised (resume model s) = Some (KeyError "best_prec1")
        /\ args (final (resume model s)) = args.set_start_epoch e (args s)
        /\ best_prec1 (final (resume model s)) = best_prec1 s)
  /\ (forall (e : Z) (b : Q),
        d !! "epoch" = Some (CInt e) ->
        d !! "best_prec1" = Some (CFloat b) ->
        d !! "state_dict" = None ->
        raised (resume model s) = Some (KeyError "state_dict")
        /\ args (final (resume model s)) = args.set_start_epoch e (args s)
        /\ best_prec1 (final (resume model s)) = b).
Proof using Type.
  intros Ht Hf.
  unfold resume, restore, os_path_isfile, torch_load, getitem, as_int, as_float,
    load_state_dict, as_state_dict.
  run. rewrite Ht, Hf. rewrite bool_decide_eq_true_2 by eauto. cbn. rewrite Hf.
  split; [|split].
  - intros ->. cbn. auto.
  - intros e -> ->. cbn. auto.
  - intros e b -> -> ->. cbn. auto.
Qed.

(** X12.  When [--resume] names a checkpoint dict that lacks a key,
    [main] ends with the [KeyError] of the first key missing in the
    order ['epoch'], ['best_prec1'], ['state_dict']; the entries read
    before it have by then replaced [args.start_epoch] and
    [best_prec1]. *)
Theorem resume_missing_key (s : State) (d : gmap string CkVal) :
  truthy (args.resume (args s)) = true ->
  files s !! args.resume (args s) = Some (Pickle d) ->
  (d !! "epoch" = None ->
     raised (main s) = Some (KeyError "epoch")
     /\ args (final (main s)) = args s
     /\ best_prec1 (final (main s)) = best_prec1 s)
  /\ (forall e : Z,
        d !! "epoch" = Some (CInt e) ->
        d !! "best_prec1" = None ->
        raised (main s) = Some (KeyError "best_prec1")
        /\ args (final (main s)) = args.set_start_epoch e (args s)
        /\ best_prec1 (final (main s)) = best_prec1 s)
  /\ (forall (e : Z) (b : Q),
        d !! "epoch" = Some (CInt e) ->
        d !! "best_prec1" = Some (CFloat b) ->
        d !! "state_dict" = None ->
        raised (main s) = Some (KeyError "state_dict")
        /\ args (final (main s)) = args.set_start_epoch e (args s)
        /\ best_prec1 (final (main s)) = b).
Proof using Type.
  intros Ht Hf.
  destruct (prelude_frame s) as (Hpa & Hpb & Hpf & _).
  pose proof (resume_key_errors (DenseNet (args s)) (prelude s) d) as Hkeys.
  rewrite Hpa, Hpf, Hpb in Hkeys. destruct (Hkeys Ht Hf) as (H1 & H2 & H3).
  rewrite main_unfold.
  split; [|split].
  - intros He. destruct (H1 He) as (Hr & Ha & Hb).
    destruct (bind_raise _ (test_or_fit TrainLoader ValLoader
                (if args.imagenet (args s) then None else Some TestLoader)) _ _ Hr)
      as (-> & ->). auto.
  - intros e He Hb0. destruct (H2 e He Hb0) as (Hr & Ha & Hb).
    destruct (bind_raise _ (test_or_fit TrainLoader ValLoader
                (if args.imagenet (args s) then None else Some TestLoader)) _ _ Hr)
      as (-> & ->). auto.
  - intros e b He Hb0 Hw. destruct (H3 e b He Hb0 Hw) as (Hr & Ha & Hb).
    destruct (bind_raise _ (test_or_fit TrainLoader ValLoader
                (if args.imagenet (args s) then None else Some TestLoader)) _ _ Hr)
      as (-> & ->). auto.
Qed.

(** ** Testing a named run *)

Lemma append_assoc (a b c : string) : (a +:+ b) +:+ c = a +:+ (b +:+ c).
Proof using Type.
  induction a as [|x a IH]; [reflexivity|].
  change (String x ((a +:+ b) +:+ c) = String x (a +:+ (b +:+ c))).
  rewrite IH. reflexivity.
Qed.

Lemma checkpoint_path_flat (n : string) :
  checkpoint_path n = "runs/" +:+ n +:+ "/checkpoint.pth.tar".
Proof using Type.
  unfold checkpoint_path, run_directory. rewrite !append_assoc. reflexivity.
Qed.

(** X13.  The test branch with [--test n] reads the file that a run
    with [--name n] saves: after an iteration of that run, and with the
    file as saved, it loads the saved weights, takes over the saved
    epoch and [best_prec1], and ends with one test pass on those
    weights. *)
Theorem test_finds_named_run (train_loader val_loader : Loader) (epoch : Z)
    (model : Weights) (optimizer : SGD) (s : State) :
  exists model' optimizer' s1,
    epoch_body train_loader val_loader epoch (model, optimizer) s
      = Ok (model', optimizer') s1
    /\ forall (loader : Loader) (model0 : Weights) (s2 : State),
         args.test (args s2) = args.name (args s) ->
         files s2 !! checkpoint_path (args.name (args s))
           = files s1 !! checkpoint_path (args.name (args s)) ->
         exists s3,
           test_only (Some loader) model0 s2 = Ok tt s3
           /\ args.test (args s3) = checkpoint_path (args.name (args s))
           /\ args.start_epoch (args s3) = epoch + 1
           /\ best_prec1 s3 = best_prec1 s1
           /\ ext s3 = test loader model' (args s3) (ext s2)
           /\ trace s3 = trace s2
                           ++ [EvPrint (LoadingModel (checkpoint_path (args.name (args s))));
                               EvTorchLoad (checkpoint_path (args.name (args s)));
                               EvLoadStateDict model';
                               EvPrint (LoadedModel (checkpoint_path (args.name (args s))));
                               EvTest loader].
Proof using Type.
  destruct (epoch_body_saves train_loader val_loader epoch model optimizer s)
    as (model' & optimizer' & s1 & Hrun & Hfile).
  exists model', optimizer', s1. split; [exact Hrun|].
  intros loader model0 s2 Hname Hsame.
  destruct (checkpoint_of_entries epoch model' (best_prec1 s1)) as (He & Hw & Hb & _).
  change (("runs/" +:+ args.name (args s) +:+ "/") +:+ "checkpoint.pth.tar")
    with (checkpoint_path (args.name (args s))) in Hfile.
  rewrite <- Hsame in Hfile. rewrite checkpoint_path_flat in Hfile |- *.
  rewrite <- Hname in Hfile |- *.
  eexists. split.
  - eapply test_only_checkpoint; [exact Hfile|].
    eexists. split; [reflexivity|]. split; [exact He|]. split; [exact Hb|exact Hw].
  - cbn. repeat split; reflexivity.
Qed.

End Driver.

Arguments Ok {Weights Ext A} a s.
Arguments Raise {Weights Ext A} e s.

(** ** The theorems at work on the small framework *)

Lemma test_ignored_on_imagenet_witness :
  truthy (args.test imagenet_test_args) = true
  /\ args.imagenet imagenet_test_args = true
  /\ resumable (start (Weights := Z) imagenet_test_args ∅ ∅ 0%nat)
  /\ raised (main toy_DenseNet toy_nelement toy_train toy_validate toy_test
               (start imagenet_test_args ∅ ∅ 0%nat)) = None
  /\ args.test (args (final (main toy_DenseNet toy_nelement toy_train toy_validate toy_test
                                (start imagenet_test_args ∅ ∅ 0%nat)))) = "exp".
Proof.
  assert (H3 : resumable (start (Weights := Z) imagenet_test_args ∅ ∅ 0%nat))
    by (intros f Ht; discriminate Ht).
  destruct (test_ignored_on_imagenet toy_DenseNet toy_nelement toy_train toy_validate
              toy_test (start imagenet_test_args ∅ ∅ 0%nat) eq_refl eq_refl H3)
    as (model & s1 & loads & blocks & best & _ & _ & _ & _ & Hraised & _ & _ & Htest).
  repeat split; assumption.
Defined.

Lemma test_mode_witness :
  args.imagenet cifar_test_args = false
  /\ truthy (args.test cifar_test_args) = true
  /\ resumable (start (Weights := Z) cifar_test_args
                      {["runs/exp/checkpoint.pth.tar" :=
                          Pickle (<["epoch" := CInt 8]>
                                  (<["best_prec1" := CFloat (1 # 2)]>
                                  (<["state_dict" := CStateDict 40]> ∅)))]} ∅ 0%nat)
  /\ raised (main toy_DenseNet toy_nelement toy_train toy_validate toy_test
               (start cifar_test_args
                      {["runs/exp/checkpoint.pth.tar" :=
                          Pickle (<["epoch" := CInt 8]>
                                  (<["best_prec1" := CFloat (1 # 2)]>
                                  (<["state_dict" := CStateDict 40]> ∅)))]} ∅ 0%nat)) = None
  /\ exists pre,
       trace (final (main toy_DenseNet toy_nelement toy_train toy_validate toy_test
               (start cifar_test_args
                      {["runs/exp/checkpoint.pth.tar" :=
                          Pickle (<["epoch" := CInt 8]>
                                  (<["best_prec1" := CFloat (1 # 2)]>
                                  (<["state_dict" := CStateDict 40]> ∅)))]} ∅ 0%nat)))
       = pre ++ [EvPrint (LoadingModel "runs/exp/checkpoint.pth.tar");
                 EvTorchLoad "runs/exp/checkpoint.pth.tar";
                 EvLoadStateDict 40;
                 EvPrint (LoadedModel "runs/exp/checkpoint.pth.tar");
                 EvTest TestLoader]
       /\ Forall is_setup_call pre.
Proof.
  set (d := <["epoch" := CInt 8]>
            (<["best_prec1" := CFloat (1 # 2)]>
            (<["state_dict" := CStateDict 40]> (∅ : gmap string (@CkVal Z))))).
  set (s := start (Ext := nat) cifar_test_args {["runs/exp/checkpoint.pth.tar" := Pickle d]}
                  ∅ 0%nat).
  assert (Hres : resumable s) by (intros f Ht; discriminate Ht).
  assert (Hck : holds_checkpoint (Pickle d) 8 (1 # 2) 40).
  { exists d. repeat split; reflexivity. }
  destruct (test_mode toy_DenseNet toy_nelement toy_train toy_validate toy_test s eq_refl)
    as [Hgiven _].
  destruct (Hgiven eq_refl) as (_ & Hrun).
  destruct (Hrun Hres) as (_ & _ & Hfile).
  destruct (Hfile (Pickle d) 8 (1 # 2) 40 eq_refl Hck) as (Hraised & pre & Htrace & Hpre).
  split; [reflexivity|]. split; [reflexivity|]. split; [exact Hres|].
  split; [exact Hraised|]. exists pre. split; [exact Htrace|exact Hpre].
Defined.

Lemma resume_branch_witness :
  truthy (args.resume resume_args) = true
  /\ holds_checkpoint (Pickle (<["epoch" := CInt 8]>
                               (<["best_prec1" := CFloat (1 # 2)]>
                               (<["state_dict" := CStateDict 40]> ∅)))) 8 (1 # 2) 40%Z
  /\ (exists s1,
        main toy_DenseNet toy_nelement toy_train toy_validate toy_test
          (start resume_args
                 {[args.resume resume_args :=
                     Pickle (<["epoch" := CInt 8]>
                             (<["best_prec1" := CFloat (1 # 2)]>
                             (<["state_dict" := CStateDict 40]> ∅)))]} ∅ 0%nat)
        = test_or_fit toy_train toy_validate toy_test TrainLoader ValLoader
                      (Some TestLoader) 40 s1
        /\ args.start_epoch (args s1) = 8
        /\ best_prec1 s1 = 1 # 2)
  /\ raised (main (Weights := Z) toy_DenseNet toy_nelement toy_train toy_validate toy_test
               (start resume_args ∅ ∅ 0%nat)) = None.
Proof.
  set (d := <["epoch" := CInt 8]>
            (<["best_prec1" := CFloat (1 # 2)]>
            (<["state_dict" := CStateDict 40]> (∅ : gmap string (@CkVal Z))))).
  assert (Hck : holds_checkpoint (Pickle d) 8 (1 # 2) 40).
  { exists d. repeat split; reflexivity. }
  split; [reflexivity|]. split; [exact Hck|]. split.
  - destruct (resume_branch toy_DenseNet toy_nelement toy_train toy_validate toy_test
                resume_args {[args.resume resume_args := Pickle d]} ∅ 0%nat eq_refl)
      as [Hfound _].
    destruct (Hfound (Pickle d) 8 (1 # 2) 40 eq_refl Hck)
      as (s1 & Hmain & Hargs & Hbest & _).
    exists s1. split; [exact Hmain|]. split; [rewrite Hargs; reflexivity|exact Hbest].
  - destruct (resume_branch (Weights := Z) toy_DenseNet toy_nelement toy_train toy_validate
                toy_test resume_args ∅ ∅ 0%nat eq_refl)
      as [_ Hmissing].
    destruct (Hmissing eq_refl) as (s1 & _ & _ & _ & _ & _ & Hfit).
    destruct (Hfit eq_refl) as [Hraised _]. exact Hraised.
Defined.

Lemma checkpoint_round_trip_witness :
  exists (model' : Z) (optimizer' : SGD) (s1 : State),
    epoch_body toy_train toy_validate TrainLoader ValLoader 7
               (0, {| param_groups := [] |}) (start resume_args ∅ ∅ 0%nat)
    = Ok (model', optimizer') s1
    /\ exists s3,
         resume 99 (start resume_args (files s1) ∅ 5%nat) = Ok model' s3
         /\ args.start_epoch (args s3) = 8
         /\ best_prec1 s3 = best_prec1 s1.
Proof.
  destruct (checkpoint_round_trip toy_train toy_validate TrainLoader ValLoader 7 0
              {| param_groups := [] |} (start resume_args ∅ ∅ 0%nat))
    as (model' & optimizer' & s1 & d & Hrun & _ & _ & _ & _ & Hresume).
  exists model', optimizer', s1. split; [exact Hrun|].
  destruct (Hresume 99 (start resume_args (files s1) ∅ 5%nat) eq_refl eq_refl)
    as (s3 & Hres & Hargs & Hbest & _).
  exists s3. split; [exact Hres|]. split; [rewrite Hargs; reflexivity|exact Hbest].
Defined.

(** A run of two epochs on CIFAR: the calls, the results of the two
    validations and the best of them. *)
Example main_two_epochs :
  let o := main toy_DenseNet toy_nelement toy_train toy_validate toy_test
                (start two_epochs_args ∅ ∅ 0%nat) in
  raised o = None
  /\ validated (trace (final o)) = [1 # 4; 2 # 4]
  /\ best_prec1 (final o) = 2 # 4
  /\ last (trace (final o)) = Some (EvTest TestLoader)
  /\ length (trace (final o)) = 17%nat.
Proof. vm_compute. repeat split. Qed.

(** The same run gives up on a file that is no checkpoint. *)
Example main_resume_garbage :
  raised (main toy_DenseNet toy_nelement toy_train toy_validate toy_test
               (start resume_args {[args.resume resume_args := Garbage]} ∅ 0%nat))
  = Some (UnpicklingError "runs/DenseNet_BC_100_12/checkpoint.pth.tar").
Proof. vm_compute. reflexivity. Qed.

(** CIFAR-10: 50000 training images give 45000 and 5000. *)
Lemma split_sizes_partition_witness :
  0 <= 50000
  /\ split_sizes 50000 = (45000, 5000)
  /\ snd (split_sizes 50000) = 50000 / 10
  /\ fst (split_sizes 50000) + snd (split_sizes 50000) = 50000.
Proof.
  assert (H : 0 <= 50000) by lia.
  destruct (split_sizes_partition 50000 H) as (Hval & Hsum & _).
  split; [exact H|]. split; [reflexivity|]. split; [exact Hval|exact Hsum].
Defined.

Lemma scheduled_lr_documented_witness :
  0 <= 200 < (if args.imagenet args.defaults then 60 else 300)
  /\ (scheduled_lr args.defaults 200 == documented_lr args.defaults 200)%Q.
Proof.
  assert (H : 0 <= 200 < (if args.imagenet args.defaults then 60 else 300))
    by (cbn; lia).
  split; [exact H|]. exact (scheduled_lr_documented args.defaults 200 H).
Defined.

Lemma scheduled_lr_decreasing_witness :
  (0 <= args.lr args.defaults)%Q
  /\ 0 <= 100 <= 200
  /\ (scheduled_lr args.defaults 200 <= scheduled_lr args.defaults 100)%Q.
Proof.
  assert (H1 : (0 <= args.lr args.defaults)%Q) by discriminate.
  assert (H2 : 0 <= 100 <= 200) by lia.
  split; [exact H1|]. split; [exact H2|].
  exact (scheduled_lr_decreasing args.defaults 100 200 H1 H2).
Defined.

Lemma scheduled_lr_negative_epoch_witness :
  (if args.imagenet args.defaults then -30 else -150) <= -5 < 0
  /\ (scheduled_lr args.defaults (-5) == args.lr args.defaults * (100 # 1))%Q.
Proof.
  assert (H : (if args.imagenet args.defaults then -30 else -150) <= -5 < 0)
    by (cbn; lia).
  split; [exact H|]. exact (scheduled_lr_negative_epoch args.defaults (-5) H).
Defined.

Lemma resume_continues_witness :
  0 <= 1
  /\ exists (model' : Z) (optimizer' : SGD) (s1 : State),
       for_each (range 0 (1 + 1)) (epoch_body toy_train toy_validate TrainLoader ValLoader)
                (0, {| param_groups := [] |}) (start two_epochs_args ∅ ∅ 0%nat)
       = Ok (model', optimizer') s1
       /\ exists s3,
            resume 99 (start resume_args (files s1) ∅ 5%nat) = Ok model' s3
            /\ args.start_epoch (args s3) = 2
            /\ best_prec1 s3 = best_prec1 s1.
Proof.
  assert (H : 0 <= 1) by lia. split; [exact H|].
  destruct (resume_continues toy_train toy_validate TrainLoader ValLoader 0 1 0
              {| param_groups := [] |} (start two_epochs_args ∅ ∅ 0%nat) H)
    as (model' & optimizer' & s1 & Hrun & Hresume).
  exists model', optimizer', s1. split; [exact Hrun|].
  destruct (Hresume 99 (start resume_args (files s1) ∅ 5%nat) eq_refl eq_refl)
    as (s3 & Hres & Hstart & Hbest & _).
  exists s3. split; [exact Hres|]. split; [exact Hstart|exact Hbest].
Defined.

Lemma fit_without_epochs_witness :
  args.epochs (args.set_start_epoch 5 two_epochs_args)
    <= args.start_epoch (args.set_start_epoch 5 two_epochs_args)
  /\ trace (final (fit toy_train toy_validate toy_test TrainLoader ValLoader
                      (Some TestLoader) 0
                      (start (args.set_start_epoch 5 two_epochs_args) ∅ ∅ 0%nat)))
     = [EvSGD; EvPrint (BestAccuracy 0); EvTest TestLoader].
Proof.
  assert (H : args.epochs (args.set_start_epoch 5 two_epochs_args)
              <= args.start_epoch (args.set_start_epoch 5 two_epochs_args))
    by (cbn; lia).
  split; [exact H|].
  destruct (fit_without_epochs toy_train toy_validate toy_test TrainLoader ValLoader
              (Some TestLoader) 0
              (start (args.set_start_epoch 5 two_epochs_args) ∅ ∅ 0%nat) H)
    as (Htrace & _).
  exact Htrace.
Defined.

Lemma resume_missing_key_witness :
  truthy (args.resume resume_args) = true
  /\ raised (main toy_DenseNet toy_nelement toy_train toy_validate toy_test
               (start resume_args
                      {[args.resume resume_args := Pickle (<["epoch" := CInt 8]> ∅)]}
                      ∅ 0%nat))
     = Some (KeyError "best_prec1")
  /\ args.start_epoch
       (args (final (main toy_DenseNet toy_nelement toy_train toy_validate toy_test
                          (start resume_args
                                 {[args.resume resume_args := Pickle (<["epoch" := CInt 8]> ∅)]}
                                 ∅ 0%nat))))
     = 8.
Proof.
  split; [reflexivity|].
  set (d := <["epoch" := CInt 8]> (∅ : gmap string (@CkVal Z))).
  set (s := start (Ext := nat) resume_args {[args.resume resume_args := Pickle d]} ∅ 0%nat).
  assert (Ht : truthy (args.resume (args s)) = true) by reflexivity.
  assert (Hf : files s !! args.resume (args s) = Some (Pickle d)) by reflexivity.
  destruct (resume_missing_key toy_DenseNet toy_nelement toy_train toy_validate toy_test
              s d Ht Hf)
    as (_ & Hbest & _).
  destruct (Hbest 8 eq_refl eq_refl) as (Hraised & Hargs & _).
  split; [exact Hraised|]. rewrite Hargs. reflexivity.
Defined.

Lemma main_tensorboard_off_witness :
  args.tensorboard two_epochs_args = false
  /\ exists new,
       trace (final (main toy_DenseNet toy_nelement toy_train toy_validate toy_test
                          (start two_epochs_args ∅ ∅ 0%nat)))
       = [] ++ new
       /\ tensorboard_calls new = [].
Proof.
  split; [reflexivity|].
  exact (main_tensorboard_off toy_DenseNet toy_nelement toy_train toy_validate toy_test
           (start two_epochs_args ∅ ∅ 0%nat) eq_refl).
Defined.
